(** * Horizon: the resume-optimisation route (src/app/api/resume/optimize/route.ts)

    A shallow embedding of the two functions of the route:
    - [nullToUndefined], the recursive null-to-undefined conversion, over a
      model of the JavaScript values it can meet;
    - [POST], the request handler, as a function of the request and of the
      external collaborators (session resolution, multipart parsing, the
      resume service), returning the trace of observable events and the
      HTTP response, or the exception that leaves the handler. *)

From Stdlib Require Import List String Ascii ZArith Bool Lia Floats.
From Stdlib.Strings Require Import Byte.
Import ListNotations.
Local Open Scope string_scope.
Local Open Scope Z_scope.

Set Warnings "-register-all".

(** ** JavaScript values *)

Module JS.

(** The values [nullToUndefined] distinguishes: [null], the non-object
    scalars ([typeof obj !== "object"]), arrays, and plain objects.  An
    object carries its own enumerable string-keyed properties in the order
    [Object.entries] lists them, and its prototype: [None] stands for the
    default [Object.prototype], [Some p] for the object [p]. *)
Inductive value : Type :=
| VUndefined
| VNull
| VBool (b : bool)
| VNum (n : float)
| VStr (s : string)
| VArr (elems : list value)
| VObj (proto : option value) (props : list (string * value)).

(** Induction principle that also covers the values nested in arrays,
    property lists and prototypes. *)
Section ValueInd.
Variable P : value -> Prop.
Hypothesis Hundef : P VUndefined.
Hypothesis Hnull : P VNull.
Hypothesis Hbool : forall b, P (VBool b).
Hypothesis Hnum : forall n, P (VNum n).
Hypothesis Hstr : forall s, P (VStr s).
Hypothesis Harr : forall elems, Forall P elems -> P (VArr elems).
Hypothesis Hobj : forall proto props,
    (forall p, proto = Some p -> P p) ->
    Forall (fun kv => P (snd kv)) props ->
    P (VObj proto props).

Fixpoint value_ind' (v : value) : P v :=
    match v with
    | VUndefined => Hundef
    | VNull => Hnull
    | VBool b => Hbool b
    | VNum n => Hnum n
    | VStr s => Hstr s
    | VArr elems =>
        Harr elems
          ((fix go (l : list value) : Forall P l :=
              match l with
              | [] => Forall_nil P
              | x :: l' => Forall_cons x (value_ind' x) (go l')
              end) elems)
    | VObj proto props =>
        Hobj proto props
          (match proto as o return forall p, o = Some p -> P p with
           | Some q => fun p (E : Some q = Some p) =>
                         match E in _ = y return
                               match y with Some p' => P p' | None => True end
                         with eq_refl => value_ind' q end
           | None => fun p (E : None = Some p) =>
                       match E in _ = y return
                             match y with Some p' => P p' | None => True end
                       with eq_refl => I end
           end)
          ((fix go (l : list (string * value))
              : Forall (fun kv => P (snd kv)) l :=
              match l with
              | [] => Forall_nil _
              | kv :: l' =>
                  Forall_cons (P := fun kv => P (snd kv)) kv
                              (value_ind' (snd kv)) (go l')
              end) props)
    end.
End ValueInd.

(** [typeof v === "object"] and [v !== null]: arrays and objects. *)
Definition is_object (v : value) : bool :=
  match v with
  | VArr _ | VObj _ _ => true
  | _ => false
  end.

(** JavaScript truthiness ([!v] is its negation). *)
Definition truthy (v : value) : bool :=
  match v with
  | VUndefined | VNull => false
  | VBool b => b
  | VNum n => negb (PrimFloat.is_zero n || PrimFloat.is_nan n)
  | VStr s => negb (String.eqb s "")
  | VArr _ | VObj _ _ => true
  end.

(** [Object.keys]: the own enumerable property names. *)
Definition Object_keys (v : value) : list string :=
  match v with
  | VObj _ props => map fst props
  | _ => []
  end.

(** The own property [key] of a property list. *)
Fixpoint props_get (key : string) (props : list (string * value))
  : option value :=
  match props with
  | [] => None
  | (k, w) :: rest => if String.eqb k key then Some w else props_get key rest
  end.

(** The keys that name an own property after assignment: all but
    [__proto__]. *)
Definition own_key (kv : string * value) : bool :=
  negb (String.eqb (fst kv) "__proto__").

(** Own data properties, updated in place or added last. *)
Fixpoint props_set (key : string) (v : value) (props : list (string * value))
  : list (string * value) :=
  match props with
  | [] => [(key, v)]
  | (k, w) :: rest =>
      if String.eqb k key then (k, v) :: rest
      else (k, w) :: props_set key v rest
  end.

(** The assignment [result[key] = v] on an object that was created by the
    literal [{}] and has only been assigned to.  Such an object has no own
    property named [__proto__], so for that key the assignment reaches the
    [__proto__] accessor inherited from [Object.prototype]: its setter
    replaces the prototype when [v] is an object and returns without effect
    when [v] is a scalar or [undefined]; in neither case is an own property
    created.  (The setter also accepts [null]; [nullToUndefined], the only
    caller, never assigns [null].)  No other key names an inherited
    accessor, so for every other key the assignment creates the own data
    property, or updates it. *)
Definition assign (result : option value * list (string * value))
           (key : string) (v : value)
  : option value * list (string * value) :=
  let (proto, props) := result in
  if String.eqb key "__proto__" then
    if is_object v then (Some v, props) else (proto, props)
  else (proto, props_set key v props).

End JS.
Import JS.

(** ** [nullToUndefined] (route.ts, lines 8-19) *)

Fixpoint nullToUndefined (obj : value) : value :=
  match obj with
  | VNull => VUndefined
  | VUndefined | VBool _ | VNum _ | VStr _ => obj
  | VArr elems => VArr (map nullToUndefined elems)
  | VObj _ props =>
      let (proto, result) :=
        fold_left
          (fun result kv => assign result (fst kv) (nullToUndefined (snd kv)))
          props (None, [])
      in VObj proto result
  end.

(** The values [JSON.parse] produces: objects have the default prototype and
    pairwise distinct keys. *)
Fixpoint distinct (keys : list string) : bool :=
  match keys with
  | [] => true
  | k :: rest => negb (existsb (String.eqb k) rest) && distinct rest
  end.

Fixpoint json_value (v : value) : bool :=
  match v with
  | VArr elems => forallb json_value elems
  | VObj None props =>
      distinct (map fst props) && forallb (fun kv => json_value (snd kv)) props
  | VObj (Some _) _ => false
  | _ => true
  end.

(** No object, at any depth, has an own property named [__proto__]. *)
Fixpoint proto_free (v : value) : bool :=
  match v with
  | VArr elems => forallb proto_free elems
  | VObj _ props =>
      forallb (fun kv => negb (String.eqb (fst kv) "__proto__")
                         && proto_free (snd kv)) props
  | _ => true
  end.

(** [null] occurs nowhere in the value, its prototype included. *)
Fixpoint null_free (v : value) : bool :=
  match v with
  | VNull => false
  | VArr elems => forallb null_free elems
  | VObj proto props =>
      match proto with Some p => null_free p | None => true end
      && forallb (fun kv => null_free (snd kv)) props
  | _ => true
  end.

(** The same, of an object under construction. *)
Definition null_free_object (result : option value * list (string * value))
  : bool :=
  match fst result with Some p => null_free p | None => true end
  && forallb (fun kv => null_free (snd kv)) (snd result).

(** Every object, through array elements and own properties, has distinct
    keys and no own property named [__proto__]. *)
Fixpoint settled (v : value) : bool :=
  match v with
  | VArr elems => forallb settled elems
  | VObj _ props =>
      distinct (map fst props)
      && forallb (fun kv => own_key kv && settled (snd kv)) props
  | _ => true
  end.

(** The same, of an object under construction. *)
Definition settled_object (result : option value * list (string * value))
  : bool :=
  distinct (map fst (snd result))
  && forallb (fun kv => own_key kv && settled (snd kv)) (snd result).

(** The conversion in the words of the specification: sequences map
    element-wise, mappings map value-wise, scalars pass through, and the
    explicit-absence marker becomes the implicit one. *)
Fixpoint normalize_spec (v : value) : value :=
  match v with
  | VNull => VUndefined
  | VArr elems => VArr (map normalize_spec elems)
  | VObj proto props =>
      VObj proto (map (fun kv => (fst kv, normalize_spec (snd kv))) props)
  | _ => v
  end.

(** ** Strings and bytes *)

(** [String.prototype.toLowerCase] on the ASCII letters.  Names are held as
    UTF-8 bytes; no character outside ASCII lower-cases to [.], [p], [d] or
    [f], so the suffix test of the handler only depends on this part. *)
Definition toLowerCase_ascii (c : ascii) : ascii :=
  let n := N_of_ascii c in
  if ((65 <=? n) && (n <=? 90))%N then ascii_of_N (n + 32) else c.

Fixpoint toLowerCase (s : string) : string :=
  match s with
  | EmptyString => EmptyString
  | String c rest => String (toLowerCase_ascii c) (toLowerCase rest)
  end.

(** [String.prototype.endsWith]. *)
Definition endsWith (s suffix : string) : bool :=
  let n := String.length s in
  let m := String.length suffix in
  if (m <=? n)%nat then String.eqb (substring (n - m) m s) suffix else false.

Definition base64_alphabet : string :=
  "ABCDEFGHIJKLMNOPQRSTUVWXYZabcdefghijklmnopqrstuvwxyz0123456789+/".

Definition base64_digit (n : N) : ascii :=
  match String.get (N.to_nat n) base64_alphabet with
  | Some c => c
  | None => "="%char
  end.

(** [Buffer.from(bytes).toString("base64")]. *)
Fixpoint toString_base64 (bytes : list byte) : string :=
  match bytes with
  | [] => ""
  | [a] =>
      let x := Byte.to_N a in
      String (base64_digit (x / 4))
        (String (base64_digit ((x mod 4) * 16)) "==")
  | [a; b] =>
      let x := Byte.to_N a in
      let y := Byte.to_N b in
      String (base64_digit (x / 4))
        (String (base64_digit ((x mod 4) * 16 + y / 16))
           (String (base64_digit ((y mod 16) * 4)) "="))
  | a :: b :: c :: rest =>
      let x := Byte.to_N a in
      let y := Byte.to_N b in
      let z := Byte.to_N c in
      String (base64_digit (x / 4))
        (String (base64_digit ((x mod 4) * 16 + y / 16))
           (String (base64_digit ((y mod 16) * 4 + z / 64))
              (String (base64_digit (z mod 64)) (toString_base64 rest))))
  end%N.

(** ** The collaborators of the handler *)

(** What a [catch] can receive: an error of the SDK's class
    [UseResumeError], with its message and its [status] (absent, or a
    number), or any other thrown value. *)
Inductive exn : Type :=
| UseResumeError (message : string) (status : option Z)
| OtherError (message : string).

(** The completion of an awaited call. *)
Inductive outcome (A : Type) : Type :=
| Returns (a : A)
| Throws (e : exn).
Arguments Returns {A} a.
Arguments Throws {A} e.

(** An uploaded [File]: its name, its [size] in bytes, and what
    [arrayBuffer()] completes with. *)
Record File : Type := {
  name : string;
  size : Z;
  arrayBuffer : outcome (list byte)
}.

(** A form field is a file or a string. *)
Inductive FormDataEntryValue : Type :=
| EntryFile (f : File)
| EntryString (s : string).

Definition FormData : Type := list (string * FormDataEntryValue).

(** [formData.get(field)]: the first entry of that name, or [null]. *)
Fixpoint FormData_get (formData : FormData) (field : string)
  : option FormDataEntryValue :=
  match formData with
  | [] => None
  | (k, e) :: rest => if String.eqb k field then Some e else FormData_get rest field
  end.

Definition Headers : Type := list (string * string).

Record NextRequest : Type := {
  headers : Headers;
  formData : outcome FormData
}.

(** The session is opaque to the handler, which only tests its presence. *)
Record Session : Type := { userId : string }.

Record ParseResumeParams : Type := {
  file : string;
  parse_to : string
}.

Module ParseResult.
Record t : Type := {
  success : bool;
  data : value
}.
End ParseResult.

Record Style : Type := {
  template : string;
  template_color : string;
  font : string
}.

Record CreateResumeParams : Type := {
  content : value;
  style : Style
}.

Record CreateData : Type := {
  file_url : value;
  file_url_expires_at : value
}.

Record Meta : Type := {
  credits_used : value;
  credits_remaining : value
}.

Module CreateResult.
Record t : Type := {
  success : bool;
  data : option CreateData;
  meta : option Meta
}.
End CreateResult.

(** The SDK client: each method completes with a result or throws. *)
Record Client : Type := {
  parseResume : ParseResumeParams -> outcome ParseResult.t;
  createResume : CreateResumeParams -> outcome CreateResult.t
}.

(** The process environment and the imported modules. *)
Record Env : Type := {
  USERESUME_API_KEY : option string;
  getSession : Headers -> outcome (option Session);
  useResume : string -> Client
}.

(** What the handler does that can be observed from outside. *)
Inductive Event : Type :=
| ConsoleLog (label : string)
| ConsoleError (label : string)
| ParseResumeCall (params : ParseResumeParams)
| CreateResumeCall (params : CreateResumeParams).

Definition is_remote_call (ev : Event) : bool :=
  match ev with
  | ParseResumeCall _ | CreateResumeCall _ => true
  | _ => false
  end.

Definition is_create_call (ev : Event) : bool :=
  match ev with
  | CreateResumeCall _ => true
  | _ => false
  end.

Definition remote_calls (trace : list Event) : list Event :=
  filter is_remote_call trace.

(** A response: its status, and its body before it is serialised. *)
Record NextResponse : Type := {
  status : Z;
  body : value
}.

(** The statuses of responses that have no body. *)
Definition null_body_status (s : Z) : bool :=
  (s =? 101) || (s =? 103) || (s =? 204) || (s =? 205) || (s =? 304).

(** The conversion of a number to the [unsigned short] of [ResponseInit]:
    an integer is reduced modulo 2^16, by the remainder operator of the
    platform, which keeps the sign. *)
Definition unsigned_short (s : Z) : Z := Z.rem s 65536.

(** [NextResponse.json(body, { status })], which builds the response with
    [Response.json]; the status defaults to 200.  A status outside
    200..599 throws a [RangeError], and a status of a response without
    body ([null_body_status]) a [TypeError], since [Response.json] always
    gives a body. *)
Definition NextResponse_json (body : value) (init : option Z)
  : outcome NextResponse :=
  let s := unsigned_short (match init with Some s => s | None => 200 end) in
  if (200 <=? s) && (s <=? 599) then
    if null_body_status s then Throws (OtherError "TypeError")
    else Returns {| status := s; body := body |}
  else Throws (OtherError "RangeError").

(** The object literal [{ error: message }]. *)
Definition error_body (message : string) : value :=
  VObj None [("error", VStr message)].

(** ** Traces and exceptions *)

(** A computation records events and then returns or throws. *)
Definition M (A : Type) : Type := list Event * outcome A.

Definition ret {A} (a : A) : M A := ([], Returns a).

Definition bind {A B} (m : M A) (k : A -> M B) : M B :=
  let (t, r) := m in
  match r with
  | Throws e => (t, Throws e)
  | Returns a => let (t', r') := k a in ((t ++ t')%list, r')
  end.

Definition emit (ev : Event) : M unit := ([ev], Returns tt).
Definition await {A} (o : outcome A) : M A := ([], o).
Definition throw {A} (e : exn) : M A := ([], Throws e).

(** A call that is not awaited: it returns or throws, and records nothing. *)
Definition call {A} (o : outcome A) : M A := ([], o).

Notation "x <- m ;; k" := (bind m (fun x => k))
  (at level 61, m at next level, right associativity).
Notation "m ;; k" := (bind m (fun _ => k))
  (at level 61, right associativity).

(** ** [POST] (route.ts, lines 21-141) *)

(** [process.env.USERESUME_API_KEY] when it is truthy: set and not empty. *)
Definition configured (key : option string) : option string :=
  match key with
  | Some k => if String.eqb k "" then None else Some k
  | None => None
  end.

(** [createResult.data?.file_url]. *)
Definition data_file_url (createResult : CreateResult.t) : value :=
  match CreateResult.data createResult with
  | Some d => file_url d
  | None => VUndefined
  end.

(** [createResult.meta?.credits_used] and [createResult.meta?.credits_remaining]. *)
Definition meta_credits_used (createResult : CreateResult.t) : value :=
  match CreateResult.meta createResult with
  | Some m => credits_used m
  | None => VUndefined
  end.

Definition meta_credits_remaining (createResult : CreateResult.t) : value :=
  match CreateResult.meta createResult with
  | Some m => credits_remaining m
  | None => VUndefined
  end.

(** The fixed style block of the create call. *)
Definition horizon_style : Style :=
  {| template := "horizon"; template_color := "amber"; font := "inter" |}.

(** The body of the [try] block. *)
Definition POST_try (env : Env) (request : NextRequest) : M NextResponse :=
  session <- await (getSession env (headers request)) ;;
  match session with
  | None => call (NextResponse_json (error_body "Unauthorized") (Some 401))
  | Some _ =>
  match configured (USERESUME_API_KEY env) with
  | None =>
      emit (ConsoleError "USERESUME_API_KEY environment variable not set") ;;
      call (NextResponse_json (error_body "Resume service not configured")
                             (Some 500))
  | Some apiKey =>
  formData <- await (formData request) ;;
  match FormData_get formData "file" with
  | None | Some (EntryString EmptyString) =>
      call (NextResponse_json (error_body "No file provided") (Some 400))
  | Some (EntryString _) =>
      (* a string has no [name]: [file.name.toLowerCase()] throws *)
      throw (OtherError "TypeError")
  | Some (EntryFile file) =>
  if negb (endsWith (toLowerCase (name file)) ".pdf") then
    call (NextResponse_json (error_body "Only PDF files are supported")
                           (Some 400))
  else
  if 5 * 1024 * 1024 <? size file then
    call (NextResponse_json (error_body "File size exceeds 5MB limit")
                           (Some 400))
  else
  let client := useResume env apiKey in
  fileBuffer <- await (arrayBuffer file) ;;
  let base64File := toString_base64 fileBuffer in
  emit (ConsoleLog "Parsing uploaded resume...") ;;
  let parseParams := {| file := base64File; parse_to := "json" |} in
  emit (ParseResumeCall parseParams) ;;
  parseResult <- await (parseResume client parseParams) ;;
  if negb (ParseResult.success parseResult)
     || negb (truthy (ParseResult.data parseResult)) then
    emit (ConsoleError "Failed to parse resume:") ;;
    call (NextResponse_json
           (error_body
              "Failed to parse resume. Please ensure the PDF is readable.")
           (Some 400))
  else
  emit (ConsoleLog "Resume parsed successfully, creating optimized version...") ;;
  let resumeContent := nullToUndefined (ParseResult.data parseResult) in
  let createParams := {| content := resumeContent; style := horizon_style |} in
  emit (CreateResumeCall createParams) ;;
  createResult <- await (createResume client createParams) ;;
  if negb (CreateResult.success createResult)
     || negb (truthy (data_file_url createResult)) then
    emit (ConsoleError "Failed to create resume:") ;;
    call (NextResponse_json (error_body "Failed to generate optimized resume")
                           (Some 500))
  else
  match CreateResult.data createResult with
  | None =>
      (* not reached: [data_file_url] is truthy *)
      throw (OtherError "TypeError")
  | Some d =>
      emit (ConsoleLog "Resume created successfully:") ;;
      call (NextResponse_json
             (VObj None
                [("success", VBool true);
                 ("download_url", file_url d);
                 ("expires_at", file_url_expires_at d);
                 ("credits_used", meta_credits_used createResult);
                 ("credits_remaining", meta_credits_remaining createResult)])
             None)
  end
  end
  end
  end.

(** [error.status || 500]. *)
Definition status_or_500 (st : option Z) : Z :=
  match st with
  | Some s => if s =? 0 then 500 else s
  | None => 500
  end.

(** The [catch] block. *)
Definition POST_catch (error : exn) : M NextResponse :=
  emit (ConsoleError "Error optimizing resume:") ;;
  match error with
  | UseResumeError message st =>
      call (NextResponse_json (error_body ("Resume API error: " ++ message))
                             (Some (status_or_500 st)))
  | OtherError _ =>
      call (NextResponse_json
             (error_body "Failed to optimize resume. Please try again.")
             (Some 500))
  end.

(** [try { ... } catch (error) { ... }]. *)
Definition try_catch {A} (m : M A) (handler : exn -> M A) : M A :=
  let (t, r) := m in
  match r with
  | Returns a => (t, Returns a)
  | Throws e => let (t', r') := handler e in ((t ++ t')%list, r')
  end.

Definition POST (env : Env) (request : NextRequest) : M NextResponse :=
  try_catch (POST_try env request) POST_catch.

(** ** Specification-side predicates *)

(** The name ends in [.pdf], each letter in either case. *)
Inductive ends_in_pdf : string -> Prop :=
| ends_here (p d f : ascii) :
    p = "p"%char \/ p = "P"%char ->
    d = "d"%char \/ d = "D"%char ->
    f = "f"%char \/ f = "F"%char ->
    ends_in_pdf (String "." (String p (String d (String f EmptyString))))
| ends_later (c : ascii) (s : string) :
    ends_in_pdf s -> ends_in_pdf (String c s).

(** The responses of the handler, by name. *)
Definition unauthorized : NextResponse :=
  {| status := 401; body := error_body "Unauthorized" |}.
Definition not_configured : NextResponse :=
  {| status := 500; body := error_body "Resume service not configured" |}.
Definition no_file : NextResponse :=
  {| status := 400; body := error_body "No file provided" |}.
Definition not_pdf : NextResponse :=
  {| status := 400; body := error_body "Only PDF files are supported" |}.
Definition too_large : NextResponse :=
  {| status := 400; body := error_body "File size exceeds 5MB limit" |}.
Definition parse_failed : NextResponse :=
  {| status := 400;
     body := error_body
               "Failed to parse resume. Please ensure the PDF is readable." |}.
Definition render_failed : NextResponse :=
  {| status := 500; body := error_body "Failed to generate optimized resume" |}.
Definition internal_error : NextResponse :=
  {| status := 500;
     body := error_body "Failed to optimize resume. Please try again." |}.

(** ** Scenarios

    Concrete collaborators and requests, among them the end-to-end
    scenarios of the specification. *)

Module Scenario.

Definition session : Session := {| userId := "user-1" |}.

Definition apiKey : string := "sk-test".

(** What the parse call returns: [{ name: "A", skills: null }]. *)
Definition parsed : ParseResult.t :=
  {| ParseResult.success := true;
     ParseResult.data := VObj None [("name", VStr "A"); ("skills", VNull)] |}.

Definition createData : CreateData :=
  {| file_url := VStr "https://x/y.pdf";
     file_url_expires_at := VStr "2025-01-01T00:00:00Z" |}.

Definition created : CreateResult.t :=
  {| CreateResult.success := true;
     CreateResult.data := Some createData;
     CreateResult.meta :=
       Some {| credits_used := VNum 1%float;
               credits_remaining := VNum 9%float |} |}.

Definition client : Client :=
  {| parseResume := fun _ => Returns parsed;
     createResume := fun _ => Returns created |}.

(** The parse call reports a failure. *)
Definition client_unreadable : Client :=
  {| parseResume := fun _ =>
       Returns {| ParseResult.success := false;
                  ParseResult.data := VUndefined |};
     createResume := fun _ => Returns created |}.

(** The parse call throws: status 429, message "rate limited". *)
Definition client_rate_limited : Client :=
  {| parseResume := fun _ =>
       Throws (UseResumeError "rate limited" (Some 429));
     createResume := fun _ => Returns created |}.

(** The create call reports a failure. *)
Definition not_created : CreateResult.t :=
  {| CreateResult.success := false;
     CreateResult.data := None;
     CreateResult.meta := None |}.

Definition client_not_rendered : Client :=
  {| parseResume := fun _ => Returns parsed;
     createResume := fun _ => Returns not_created |}.

Definition env_with (c : Client) : Env :=
  {| USERESUME_API_KEY := Some apiKey;
     getSession := fun _ => Returns (Some session);
     useResume := fun _ => c |}.

Definition env : Env := env_with client.

(** Nobody is signed in, and no credential is configured. *)
Definition env_anonymous : Env :=
  {| USERESUME_API_KEY := None;
     getSession := fun _ => Returns None;
     useResume := fun _ => client |}.

(** Signed in, but no credential is configured. *)
Definition env_unconfigured : Env :=
  {| USERESUME_API_KEY := None;
     getSession := fun _ => Returns (Some session);
     useResume := fun _ => client |}.

(** Session resolution throws. *)
Definition env_auth_down : Env :=
  {| USERESUME_API_KEY := Some apiKey;
     getSession := fun _ => Throws (OtherError "connection refused");
     useResume := fun _ => client |}.

(** A file of [n] zero bytes. *)
Definition file_of (filename : string) (n : N) : File :=
  {| name := filename;
     size := Z.of_N n;
     arrayBuffer := Returns (repeat x00 (N.to_nat n)) |}.

Definition form_of (f : File) : FormData := [("file", EntryFile f)].

Definition upload (f : File) : NextRequest :=
  {| headers := [("cookie", "session=1")];
     formData := Returns (form_of f) |}.

Definition resume_pdf : File := file_of "resume.pdf" 12.
Definition resume_upper : File := file_of "Resume.PDF" 12.
Definition resume_docx : File := file_of "resume.docx" 12.
Definition resume_docx_large : File := file_of "resume.docx" 6000000.
Definition resume_at_limit : File := file_of "resume.pdf" 5242880.
Definition resume_over_limit : File := file_of "resume.pdf" 5242881.

(** A body that is not multipart form data. *)
Definition not_multipart : NextRequest :=
  {| headers := [("content-type", "application/json")];
     formData := Throws (OtherError "TypeError") |}.

(** The parse call for the 12 zero bytes of [resume_pdf]. *)
Definition parseParams : ParseResumeParams :=
  {| file := "AAAAAAAAAAAAAAAA"; parse_to := "json" |}.

(** The create call for [parsed]. *)
Definition createParams : CreateResumeParams :=
  {| content := VObj None [("name", VStr "A"); ("skills", VUndefined)];
     style := horizon_style |}.

End Scenario.

(** The own property [key] of an object. *)
Definition own_property (v : value) (key : string) : option value :=
  match v with
  | VObj _ props => props_get key props
  | _ => None
  end.

(** ** Sample values *)

Module Sample.

(** [{ name: "A", skills: null, jobs: [{ title: null }] }]. *)
Definition resume : value :=
  VObj None [("name", VStr "A"); ("skills", VNull);
             ("jobs", VArr [VObj None [("title", VNull)]])].

(** The entries of
    [{ "name": "A", "__proto__": { "admin": true }, "skills": null }]. *)
Definition polluted : list (string * value) :=
  [("name", VStr "A");
   ("__proto__", VObj None [("admin", VBool true)]);
   ("skills", VNull)].

(** [{ name: "A", tags: ["x", "y"] }]: nothing to convert. *)
Definition plain : value :=
  VObj None [("name", VStr "A"); ("tags", VArr [VStr "x"; VStr "y"])].

(** A form whose [file] field is a text. *)
Definition text_upload (text : string) : NextRequest :=
  {| headers := [("cookie", "session=1")];
     formData := Returns [("file", EntryString text)] |}.

(** Signed in; the credential is set to the empty string. *)
Definition env_empty_key : Env :=
  {| USERESUME_API_KEY := Some "";
     getSession := fun _ => Returns (Some Scenario.session);
     useResume := fun _ => Scenario.client |}.

(** An upload whose bytes cannot be read. *)
Definition unreadable_file : File :=
  {| name := "resume.pdf";
     size := 12;
     arrayBuffer := Throws (OtherError "NotReadableError") |}.

(** An upload of no bytes. *)
Definition empty_pdf : File := Scenario.file_of "empty.pdf" 0.

(** The response of the end-to-end scenario. *)
Definition optimized : NextResponse :=
  {| status := 200;
     body :=
       VObj None
         [("success", VBool true);
          ("download_url", VStr "https://x/y.pdf");
          ("expires_at", VStr "2025-01-01T00:00:00Z");
          ("credits_used", VNum 1%float);
          ("credits_remaining", VNum 9%float)] |}.

(** The create call reports success without data. *)
Definition created_without_data : CreateResult.t :=
  {| CreateResult.success := true;
     CreateResult.data := None;
     CreateResult.meta := None |}.

(** The create call reports success with the given file URL. *)
Definition created_with_url (url : value) : CreateResult.t :=
  {| CreateResult.success := true;
     CreateResult.data :=
       Some {| file_url := url;
               file_url_expires_at := VStr "2025-01-01T00:00:00Z" |};
     CreateResult.meta := None |}.

Definition client_creating (result : CreateResult.t) : Client :=
  {| parseResume := fun _ => Returns Scenario.parsed;
     createResume := fun _ => Returns result |}.

(** The parse call throws a [UseResumeError] with the given status. *)
Definition client_failing (message : string) (st : Z) : Client :=
  {| parseResume := fun _ => Throws (UseResumeError message (Some st));
     createResume := fun _ => Returns Scenario.created |}.

(** The response to the rate-limited parse call. *)
Definition rate_limited : NextResponse :=
  {| status := 429;
     body := error_body "Resume API error: rate limited" |}.

End Sample.

(** * Properties of [nullToUndefined] *)

Section NullToUndefined.

Lemma props_set_fresh key v props :
  existsb (String.eqb key) (map fst props) = false ->
  props_set key v props = (props ++ [(key, v)])%list.
Proof.
  induction props as [|[k w] rest IH]; simpl; intros H; [reflexivity|].
  apply orb_false_elim in H as [Hk Hrest].
  rewrite String.eqb_sym, Hk. now rewrite IH.
Qed.

Lemma map_fst_values {A B C} (g : B -> C) (l : list (A * B)) :
  map fst (map (fun kv => (fst kv, g (snd kv))) l) = map fst l.
Proof. induction l as [|x l IH]; simpl; [reflexivity|now rewrite IH]. Qed.

Lemma existsb_app_false {A} (f : A -> bool) l1 l2 :
  existsb f l1 = false -> existsb f l2 = false ->
  existsb f (l1 ++ l2) = false.
Proof. intros H1 H2. now rewrite existsb_app, H1, H2. Qed.

(** The prototype the loop leaves: that of the start, unless the entries
    hold an object under [__proto__]. *)
Lemma assign_loop (f : value -> value) props : forall proto acc,
  distinct (map fst props) = true ->
  forallb (fun kv => negb (existsb (String.eqb (fst kv)) (map fst acc)))
          props = true ->
  fold_left (fun result kv => assign result (fst kv) (f (snd kv)))
            props (proto, acc)
  = (match props_get "__proto__" props with
     | Some w => if is_object (f w) then Some (f w) else proto
     | None => proto
     end,
     (acc ++ map (fun kv => (fst kv, f (snd kv))) (filter own_key props))%list).
Proof.
  induction props as [|[k w] rest IH]; simpl; intros proto acc Hd Ha.
  - now rewrite app_nil_r.
  - apply andb_prop in Hd as [Hk Hd].
    apply andb_prop in Ha as [Hka Ha].
    apply negb_true_iff in Hk, Hka.
    unfold own_key at 1. simpl.
    assert (Hrest : forall key,
               existsb (String.eqb key) (map fst rest) = false ->
               props_get key rest = None).
    { clear. intros key. induction rest as [|[k' w'] rest IH]; simpl;
        [reflexivity|].
      intros H. apply orb_false_elim in H as [Hk Hr].
      rewrite String.eqb_sym, Hk. auto. }
    destruct (String.eqb_spec k "__proto__") as [->|Hne]; simpl.
    + assert (Ha' : forall p,
                 fold_left
                   (fun result kv => assign result (fst kv) (f (snd kv)))
                   rest (p, acc)
                 = (p, (acc ++ map (fun kv => (fst kv, f (snd kv)))
                                   (filter own_key rest))%list)).
      { intros p. rewrite IH; auto. now rewrite (Hrest _ Hk). }
      destruct (is_object (f w)); apply Ha'.
    + rewrite (props_set_fresh _ _ _ Hka).
      rewrite IH; auto.
      * now rewrite <- app_assoc.
      * rewrite forallb_forall in *. intros [k' w'] Hin. simpl.
        apply negb_true_iff. rewrite map_app. apply existsb_app_false.
        -- apply negb_true_iff. exact (Ha _ Hin).
        -- simpl. rewrite orb_false_r.
           destruct (String.eqb_spec k' k) as [->|]; [|reflexivity].
           rewrite <- Hk. symmetry.
           apply existsb_exists. exists k. split; [|apply String.eqb_refl].
           apply in_map_iff. now exists (k, w').
Qed.

(** What the code returns for an object of [JSON.parse]: the converted
    entries other than [__proto__], under the converted [__proto__] entry
    as prototype when that is an object. *)
Lemma nullToUndefined_object props :
  distinct (map fst props) = true ->
  nullToUndefined (VObj None props)
  = VObj (match props_get "__proto__" props with
          | Some w =>
              if is_object (nullToUndefined w) then Some (nullToUndefined w)
              else None
          | None => None
          end)
         (map (fun kv => (fst kv, nullToUndefined (snd kv)))
              (filter own_key props)).
Proof.
  intros Hd. simpl. rewrite assign_loop; auto.
  clear. induction props; simpl; auto.
Qed.

(** The keys of the result are those of the input other than
    [__proto__]. *)
Lemma nullToUndefined_object_keys props :
  distinct (map fst props) = true ->
  Object_keys (nullToUndefined (VObj None props))
  = filter (fun k => negb (String.eqb k "__proto__")) (map fst props).
Proof.
  intros Hd. rewrite nullToUndefined_object by assumption. simpl.
  rewrite map_fst_values.
  clear. induction props as [|[k w] rest IH]; simpl; [reflexivity|].
  unfold own_key at 1. simpl.
  destruct (String.eqb k "__proto__"); simpl; now rewrite IH.
Qed.

Lemma proto_free_props props :
  forallb own_key props = true ->
  props_get "__proto__" props = None /\ filter own_key props = props.
Proof.
  induction props as [|[k w] rest IH]; simpl; [auto|].
  intros H. apply andb_prop in H as [Hk Hrest].
  rewrite Hk. unfold own_key in Hk. simpl in Hk.
  apply negb_true_iff in Hk. rewrite Hk.
  destruct (IH Hrest) as [-> ->]. auto.
Qed.

Lemma forallb_and {A} (f g : A -> bool) l :
  forallb (fun x => f x && g x) l = forallb f l && forallb g l.
Proof.
  induction l as [|x l IH]; simpl; [reflexivity|].
  rewrite IH. destruct (f x), (g x), (forallb f l); reflexivity.
Qed.

(** On the values of [JSON.parse] without a [__proto__] key the code does
    what the specification describes. *)
Lemma nullToUndefined_normalize v :
  json_value v = true -> proto_free v = true ->
  nullToUndefined v = normalize_spec v.
Proof.
  induction v as [| | | | |elems IH|proto props _ IH] using value_ind';
    simpl; intros Hj Hp; try reflexivity.
  - f_equal. apply map_ext_in. intros x Hx.
    rewrite Forall_forall in IH. rewrite forallb_forall in Hj, Hp. auto.
  - destruct proto; [discriminate|].
    apply andb_prop in Hj as [Hd Hj].
    rewrite forallb_and in Hp. apply andb_prop in Hp as [Hk Hp].
    change (nullToUndefined (VObj None props)
            = VObj None (map (fun kv => (fst kv, normalize_spec (snd kv)))
                             props)).
    rewrite nullToUndefined_object by assumption.
    destruct (proto_free_props props Hk) as [-> ->].
    f_equal. apply map_ext_in. intros [k w] Hin. simpl. f_equal.
    rewrite Forall_forall in IH. rewrite forallb_forall in Hj, Hp.
    apply (IH _ Hin); [apply (Hj _ Hin)|apply (Hp _ Hin)].
Qed.

Lemma forallb_map' {A B} (f : B -> bool) (g : A -> B) l :
  forallb f (map g l) = forallb (fun x => f (g x)) l.
Proof. induction l as [|x l IH]; simpl; [reflexivity|now rewrite IH]. Qed.

Lemma normalize_spec_json v :
  json_value v = true -> json_value (normalize_spec v) = true.
Proof.
  induction v as [| | | | |elems IH|proto props _ IH] using value_ind';
    simpl; intros Hj; try reflexivity.
  - rewrite forallb_map'. rewrite forallb_forall in *.
    rewrite Forall_forall in IH. auto.
  - destruct proto; [discriminate|].
    apply andb_prop in Hj as [Hd Hj].
    rewrite map_fst_values, Hd. simpl.
    rewrite forallb_map'. simpl. rewrite forallb_forall in *.
    rewrite Forall_forall in IH. auto.
Qed.

Lemma normalize_spec_proto_free v :
  proto_free v = true -> proto_free (normalize_spec v) = true.
Proof.
  induction v as [| | | | |elems IH|proto props _ IH] using value_ind';
    simpl; intros Hp; try reflexivity.
  - rewrite forallb_map'. rewrite forallb_forall in *.
    rewrite Forall_forall in IH. auto.
  - rewrite forallb_map'. simpl. rewrite forallb_forall in *.
    rewrite Forall_forall in IH. intros kv Hin.
    specialize (Hp _ Hin). apply andb_prop in Hp as [-> Hp]. simpl. auto.
Qed.

Lemma normalize_spec_idempotent v :
  normalize_spec (normalize_spec v) = normalize_spec v.
Proof.
  induction v as [| | | | |elems IH|proto props _ IH] using value_ind';
    simpl; try reflexivity.
  - f_equal. rewrite map_map. apply map_ext_in.
    rewrite Forall_forall in IH. auto.
  - f_equal. rewrite map_map. apply map_ext_in. intros kv Hin. simpl.
    rewrite Forall_forall in IH. now rewrite IH.
Qed.

(** Idempotence, away from [__proto__] keys. *)
Lemma nullToUndefined_idempotent v :
  json_value v = true -> proto_free v = true ->
  nullToUndefined (nullToUndefined v) = nullToUndefined v.
Proof.
  intros Hj Hp. rewrite (nullToUndefined_normalize v Hj Hp).
  rewrite nullToUndefined_normalize.
  - apply normalize_spec_idempotent.
  - now apply normalize_spec_json.
  - now apply normalize_spec_proto_free.
Qed.

(** An array keeps its length, whatever it holds. *)
Lemma nullToUndefined_array_length elems :
  exists elems', nullToUndefined (VArr elems) = VArr elems'
                 /\ List.length elems' = List.length elems.
Proof. exists (map nullToUndefined elems). simpl. now rewrite length_map. Qed.

(** An object keeps its keys, away from [__proto__] keys. *)
Lemma nullToUndefined_keys v :
  json_value v = true -> proto_free v = true ->
  Object_keys (nullToUndefined v) = Object_keys v.
Proof.
  intros Hj Hp. rewrite (nullToUndefined_normalize v Hj Hp).
  destruct v; try reflexivity. simpl. apply map_fst_values.
Qed.

Lemma props_set_null_free key v props :
  null_free v = true ->
  forallb (fun kv => null_free (snd kv)) props = true ->
  forallb (fun kv => null_free (snd kv)) (props_set key v props) = true.
Proof.
  intros Hv. induction props as [|[k w] rest IH]; simpl; intros H.
  - now rewrite Hv.
  - apply andb_prop in H as [Hw Hrest].
    destruct (String.eqb k key); simpl.
    + now rewrite Hv, Hrest.
    + now rewrite Hw, IH.
Qed.

Lemma assign_null_free result key v :
  null_free v = true -> null_free_object result = true ->
  null_free_object (assign result key v) = true.
Proof.
  destruct result as [proto props]. unfold null_free_object, assign.
  simpl. intros Hv H. apply andb_prop in H as [Hproto Hprops].
  destruct (String.eqb key "__proto__").
  - destruct (is_object v); simpl; now rewrite ?Hv, ?Hproto, Hprops.
  - simpl. now rewrite Hproto, props_set_null_free.
Qed.

Lemma assign_loop_null_free (f : value -> value) props : forall result,
  Forall (fun kv => null_free (f (snd kv)) = true) props ->
  null_free_object result = true ->
  null_free_object
    (fold_left (fun result kv => assign result (fst kv) (f (snd kv)))
               props result) = true.
Proof.
  induction props as [|kv rest IH]; simpl; intros result Hf Hr; [exact Hr|].
  inversion Hf; subst. apply IH; [assumption|].
  now apply assign_null_free.
Qed.

(** No [null] is left in the result, at any depth, whatever the input. *)
Lemma nullToUndefined_null_free v : null_free (nullToUndefined v) = true.
Proof.
  induction v as [| | | | |elems IH|proto props _ IH] using value_ind';
    simpl; try reflexivity.
  - rewrite forallb_map'. apply forallb_forall.
    rewrite Forall_forall in IH. auto.
  - pose proof (assign_loop_null_free nullToUndefined props (None, []) IH
                  eq_refl) as H.
    destruct (fold_left _ props (None, [])) as [proto' result]. exact H.
Qed.

(** A scalar other than [null] is returned as it is. *)
Lemma nullToUndefined_scalar v :
  is_object v = false -> v <> VNull -> nullToUndefined v = v.
Proof. destruct v; simpl; intros H Hn; congruence. Qed.

End NullToUndefined.

(** C1 (fails on the code): [nullToUndefined] does not keep the key-set of
    every mapping, and is not idempotent on every value.  The object
    [{"name": "A", "__proto__": null}], as [JSON.parse] builds it, comes
    back without its [__proto__] key, because the assignment
    [result["__proto__"] = undefined] creates no property; and
    [{"__proto__": {"admin": true}}] comes back as an empty object whose
    prototype was replaced, which a second application does not
    reproduce. *)
Theorem nullToUndefined_loses_proto_key :
  let parsed := VObj None [("name", VStr "A"); ("__proto__", VNull)] in
  let nested := VObj None [("__proto__", VObj None [("admin", VBool true)])] in
  json_value parsed = true
  /\ nullToUndefined parsed = VObj None [("name", VStr "A")]
  /\ Object_keys parsed = ["name"; "__proto__"]
  /\ Object_keys (nullToUndefined parsed) = ["name"]
  /\ json_value nested = true
  /\ nullToUndefined nested
     = VObj (Some (VObj None [("admin", VBool true)])) []
  /\ nullToUndefined (nullToUndefined nested) = VObj None []
  /\ nullToUndefined (nullToUndefined nested) <> nullToUndefined nested.
Proof.
  cbv zeta. repeat split; try reflexivity.
  vm_compute. discriminate.
Qed.

(** * The file-name test *)

Section FileName.

Lemma substring_all s : substring 0 (String.length s) s = s.
Proof. induction s as [|c s IH]; simpl; [reflexivity|now rewrite IH]. Qed.

Lemma eqb_length a b :
  String.eqb a b = true -> String.length a = String.length b.
Proof. intros H. apply String.eqb_eq in H. now subst. Qed.

Lemma endsWith_empty suffix : endsWith "" suffix = String.eqb "" suffix.
Proof. destruct suffix; reflexivity. Qed.

Lemma endsWith_cons c s suffix :
  endsWith (String c s) suffix
  = String.eqb (String c s) suffix || endsWith s suffix.
Proof.
  unfold endsWith.
  change (String.length (String c s)) with (S (String.length s)).
  set (n := String.length s). set (m := String.length suffix).
  destruct (Nat.leb_spec m n) as [Hle|Hgt].
  - replace (m <=? S n)%nat with true by (symmetry; apply Nat.leb_le; lia).
    replace (S n - m)%nat with (S (n - m)) by lia.
    change (substring (S (n - m)) m (String c s)) with (substring (n - m) m s).
    destruct (String.eqb (String c s) suffix) eqn:E; [|reflexivity].
    apply eqb_length in E. simpl in E. subst n m. lia.
  - rewrite orb_false_r.
    destruct (Nat.leb_spec m (S n)) as [Hle|Hgt'].
    + assert (m = S n) as -> by lia.
      rewrite Nat.sub_diag.
      change (S n) with (String.length (String c s)).
      now rewrite substring_all.
    + destruct (String.eqb (String c s) suffix) eqn:E; [|reflexivity].
      apply eqb_length in E. simpl in E. subst n m. lia.
Qed.

Lemma toLowerCase_ascii_dot c :
  toLowerCase_ascii c = "."%char <-> c = "."%char.
Proof.
  destruct c as [[] [] [] [] [] [] [] []]; vm_compute;
    split; intros H; try discriminate H; reflexivity.
Qed.

Lemma toLowerCase_ascii_p c :
  toLowerCase_ascii c = "p"%char <-> c = "p"%char \/ c = "P"%char.
Proof.
  destruct c as [[] [] [] [] [] [] [] []]; vm_compute;
    (split; [intros H; try discriminate H; auto
            |intros [H|H]; try discriminate H; reflexivity]).
Qed.

Lemma toLowerCase_ascii_d c :
  toLowerCase_ascii c = "d"%char <-> c = "d"%char \/ c = "D"%char.
Proof.
  destruct c as [[] [] [] [] [] [] [] []]; vm_compute;
    (split; [intros H; try discriminate H; auto
            |intros [H|H]; try discriminate H; reflexivity]).
Qed.

Lemma toLowerCase_ascii_f c :
  toLowerCase_ascii c = "f"%char <-> c = "f"%char \/ c = "F"%char.
Proof.
  destruct c as [[] [] [] [] [] [] [] []]; vm_compute;
    (split; [intros H; try discriminate H; auto
            |intros [H|H]; try discriminate H; reflexivity]).
Qed.

(** A whole name lower-cases to [.pdf] exactly when it is [.pdf] in some
    letter case. *)
Lemma toLowerCase_is_pdf s :
  toLowerCase s = ".pdf" <->
  exists p d f,
    s = String "." (String p (String d (String f EmptyString)))
    /\ (p = "p"%char \/ p = "P"%char)
    /\ (d = "d"%char \/ d = "D"%char)
    /\ (f = "f"%char \/ f = "F"%char).
Proof.
  split.
  - destruct s as [|c0 [|p [|d [|f [|x s]]]]]; simpl; intros H;
      try discriminate H.
    injection H as H0 Hp Hd Hf.
    apply (proj1 (toLowerCase_ascii_dot _)) in H0.
    apply (proj1 (toLowerCase_ascii_p _)) in Hp.
    apply (proj1 (toLowerCase_ascii_d _)) in Hd.
    apply (proj1 (toLowerCase_ascii_f _)) in Hf.
    subst c0. now exists p, d, f.
  - intros (p & d & f & -> & Hp & Hd & Hf). simpl.
    apply (proj2 (toLowerCase_ascii_p _)) in Hp.
    apply (proj2 (toLowerCase_ascii_d _)) in Hd.
    apply (proj2 (toLowerCase_ascii_f _)) in Hf. now rewrite Hp, Hd, Hf.
Qed.

(** The test of the handler decides [ends_in_pdf]. *)
Lemma endsWith_pdf name :
  endsWith (toLowerCase name) ".pdf" = true <-> ends_in_pdf name.
Proof.
  induction name as [|c s IH].
  - split; [discriminate|inversion 1].
  - change (toLowerCase (String c s))
      with (String (toLowerCase_ascii c) (toLowerCase s)).
    rewrite endsWith_cons, orb_true_iff, IH.
    change (String (toLowerCase_ascii c) (toLowerCase s))
      with (toLowerCase (String c s)).
    rewrite String.eqb_eq, toLowerCase_is_pdf.
    split.
    + intros [(p & d & f & -> & Hp & Hd & Hf)|H].
      * now apply ends_here.
      * now apply ends_later.
    + inversion 1; subst.
      * left. now exists p, d, f.
      * now right.
Qed.

Lemma endsWith_pdf_false name :
  endsWith (toLowerCase name) ".pdf" = false <-> ~ ends_in_pdf name.
Proof.
  rewrite <- endsWith_pdf.
  destruct (endsWith (toLowerCase name) ".pdf"); split; intros H;
    try reflexivity; try discriminate; congruence.
Qed.

End FileName.

(** * Properties of [POST] *)

Section Handler.

(** The scrutinee the evaluation of a term is waiting for. *)
Ltac head_scrutinee t :=
  lazymatch t with
  | match ?x with _ => _ end =>
      lazymatch x with
      | match _ with _ => _ end => head_scrutinee x
      | _ => x
      end
  end.

(** Run the handler in [H : _ = (trace, r)], splitting on every test and on
    every completion of a collaborator. *)
Ltac exec H :=
  repeat (unfold try_catch, POST_catch, bind, await, call, ret, emit, throw
            in H;
          cbn [negb app] in H;
          lazymatch type of H with
          | ?lhs = _ =>
              let x := head_scrutinee lhs in
              lazymatch x with
              | NextResponse_json ?b (Some ?s) =>
                  first [ change x with (Returns {| status := s; body := b |})
                            in H
                        | destruct x eqn:? ]
              | NextResponse_json ?b None =>
                  change x with (Returns {| status := 200; body := b |}) in H
              | _ => destruct x eqn:?
              end
          end).

(** What [NextResponse.json] returns, when it returns. *)
Lemma NextResponse_json_returns b init response :
  NextResponse_json b init = Returns response ->
  body response = b
  /\ status response
     = unsigned_short (match init with Some s => s | None => 200 end).
Proof.
  unfold NextResponse_json. intros H.
  destruct (_ && _); [|discriminate].
  destruct (null_body_status _); [discriminate|].
  injection H as <-. split; reflexivity.
Qed.

(** The statuses [NextResponse.json] accepts are returned as they are. *)
Lemma NextResponse_json_accepted b s :
  200 <= s <= 599 -> s <> 204 -> s <> 205 -> s <> 304 ->
  NextResponse_json b (Some s) = Returns {| status := s; body := b |}.
Proof.
  intros Hr H204 H205 H304. unfold NextResponse_json, unsigned_short.
  rewrite Z.rem_small by lia.
  replace ((200 <=? s) && (s <=? 599)) with true
    by (symmetry; apply andb_true_intro; split; apply Z.leb_le; lia).
  unfold null_body_status.
  repeat match goal with
         | |- context [s =? ?k] =>
             replace (s =? k) with false by (symmetry; apply Z.eqb_neq; lia)
         end.
  reflexivity.
Qed.

(** Close [Returns x <> Returns fixed] when the bodies differ. *)
Ltac other_response :=
  let E := fresh "E" in
  intros E;
  first
    [ apply NextResponse_json_returns in E; destruct E as [E _];
      simpl in E; discriminate E
    | unfold too_large, not_pdf, error_body in E; simpl in E; congruence ].

(** C6: without a session the response is 401 [{ error: "Unauthorized" }],
    and neither the parse nor the create call is made. *)
Theorem no_session_unauthorized (env : Env) (request : NextRequest) :
  getSession env (headers request) = Returns None ->
  POST env request = ([], Returns unauthorized)
  /\ remote_calls (fst (POST env request)) = [].
Proof.
  intros Hs. unfold POST, POST_try. rewrite Hs. split; reflexivity.
Qed.

(** C9: the guards are taken in the order session, credential, file
    presence, extension, size, and the first that fails decides the
    response: without a session it is 401 whatever the credential; with a
    session and no credential it is 500 [{ error: "Resume service not
    configured" }] whatever the file; then a missing file, then a wrong
    extension whatever the size, then the size. *)
Theorem guard_precedence (env : Env) (request : NextRequest) :
  (getSession env (headers request) = Returns None ->
   snd (POST env request) = Returns unauthorized)
  /\ (forall session,
         getSession env (headers request) = Returns (Some session) ->
         configured (USERESUME_API_KEY env) = None ->
         snd (POST env request) = Returns not_configured)
  /\ (forall session apiKey fd,
         getSession env (headers request) = Returns (Some session) ->
         configured (USERESUME_API_KEY env) = Some apiKey ->
         formData request = Returns fd ->
         FormData_get fd "file" = None ->
         snd (POST env request) = Returns no_file)
  /\ (forall session apiKey fd f,
         getSession env (headers request) = Returns (Some session) ->
         configured (USERESUME_API_KEY env) = Some apiKey ->
         formData request = Returns fd ->
         FormData_get fd "file" = Some (EntryFile f) ->
         ~ ends_in_pdf (name f) ->
         snd (POST env request) = Returns not_pdf)
  /\ (forall session apiKey fd f,
         getSession env (headers request) = Returns (Some session) ->
         configured (USERESUME_API_KEY env) = Some apiKey ->
         formData request = Returns fd ->
         FormData_get fd "file" = Some (EntryFile f) ->
         ends_in_pdf (name f) ->
         5242880 < size f ->
         snd (POST env request) = Returns too_large).
Proof.
  unfold POST, POST_try. repeat split.
  - intros ->. reflexivity.
  - intros session -> ->. reflexivity.
  - intros session apiKey fd -> -> ->. cbn [bind await]. intros ->.
    reflexivity.
  - intros session apiKey fd f -> -> ->. cbn [bind await]. intros ->.
    intros Hn. apply endsWith_pdf_false in Hn. rewrite Hn. reflexivity.
  - intros session apiKey fd f -> -> ->. cbn [bind await]. intros ->.
    intros Hp Hsz. apply endsWith_pdf in Hp. rewrite Hp.
    replace (5 * 1024 * 1024 <? size f) with true
      by (symmetry; apply Z.ltb_lt; lia).
    reflexivity.
Qed.

(** C10: an exception that is not a [UseResumeError], thrown by session
    resolution or by the extraction of the form data, is answered with 500
    [{ error: "Failed to optimize resume. Please try again." }]. *)
Theorem early_exception_internal_error
        (env : Env) (request : NextRequest) (message : string) :
  (getSession env (headers request) = Throws (OtherError message) ->
   POST env request
   = ([ConsoleError "Error optimizing resume:"], Returns internal_error))
  /\ (forall session apiKey,
         getSession env (headers request) = Returns (Some session) ->
         configured (USERESUME_API_KEY env) = Some apiKey ->
         formData request = Throws (OtherError message) ->
         POST env request
         = ([ConsoleError "Error optimizing resume:"], Returns internal_error)).
Proof.
  unfold POST, POST_try. split.
  - intros ->. reflexivity.
  - intros session apiKey -> -> ->. reflexivity.
Qed.

(** C4 (as amended): whatever the [try] block throws is caught and
    logged.  A [UseResumeError] whose status is one a response with a body
    can have (200..599 other than 204, 205 and 304) is answered with that
    status, one without status (or with 0) with 500, both with
    [{ error: "Resume API error: <message>" }]; anything else with 500
    [{ error: "Failed to optimize resume. Please try again." }]. *)
Theorem catch_maps_exceptions
        (env : Env) (request : NextRequest) (trace : list Event) (e : exn) :
  POST_try env request = (trace, Throws e) ->
  fst (POST env request)
  = (trace ++ [ConsoleError "Error optimizing resume:"])%list
  /\ (forall message s,
         e = UseResumeError message (Some s) ->
         200 <= s <= 599 -> s <> 204 -> s <> 205 -> s <> 304 ->
         snd (POST env request)
         = Returns {| status := s;
                      body := error_body ("Resume API error: " ++ message) |})
  /\ (forall message,
         e = UseResumeError message None
         \/ e = UseResumeError message (Some 0) ->
         snd (POST env request)
         = Returns {| status := 500;
                      body := error_body ("Resume API error: " ++ message) |})
  /\ (forall message,
         e = OtherError message ->
         snd (POST env request) = Returns internal_error).
Proof.
  intros H. unfold POST. rewrite H. repeat split.
  - destruct e; reflexivity.
  - intros message s -> Hr H204 H205 H304.
    cbn [try_catch POST_catch bind emit call snd].
    assert (Hs : status_or_500 (Some s) = s).
    { unfold status_or_500.
      now replace (s =? 0) with false by (symmetry; apply Z.eqb_neq; lia). }
    rewrite Hs, NextResponse_json_accepted by assumption.
    reflexivity.
  - intros message [-> | ->]; reflexivity.
  - intros message ->. reflexivity.
Qed.

(** C2: with a session, a credential and a file named [.pdf], a file of
    exactly 5,242,880 bytes passes the size check, and the parse call is
    made once its bytes are read; a larger file is answered with 400
    [{ error: "File size exceeds 5MB limit" }] and no remote call. *)
Theorem size_limit_boundary
        (env : Env) (request : NextRequest) (session : Session)
        (apiKey : string) (fd : FormData) (f : File) :
  getSession env (headers request) = Returns (Some session) ->
  configured (USERESUME_API_KEY env) = Some apiKey ->
  formData request = Returns fd ->
  FormData_get fd "file" = Some (EntryFile f) ->
  ends_in_pdf (name f) ->
  (size f = 5242880 ->
   snd (POST env request) <> Returns too_large
   /\ forall bytes,
       arrayBuffer f = Returns bytes ->
       exists rest,
         fst (POST env request)
         = ConsoleLog "Parsing uploaded resume..."
             :: ParseResumeCall {| file := toString_base64 bytes;
                                   parse_to := "json" |}
             :: rest)
  /\ (5242880 < size f ->
      POST env request = ([], Returns too_large)
      /\ remote_calls (fst (POST env request)) = []).
Proof.
  intros Hs Hk Hfd Hf Hp. apply endsWith_pdf in Hp. split.
  - intros Hsz. split.
    + destruct (POST env request) as [trace r] eqn:H.
      unfold POST, POST_try in H. rewrite Hs, Hk, Hfd in H.
      cbn [bind await] in H. rewrite Hf, Hp, Hsz in H.
      change (5 * 1024 * 1024 <? 5242880) with false in H.
      exec H; injection H as <- <-; cbn [snd]; other_response.
    + intros bytes Hb. destruct (POST env request) as [trace r] eqn:H.
      unfold POST, POST_try in H. rewrite Hs, Hk, Hfd in H.
      cbn [bind await] in H. rewrite Hf, Hp, Hsz, Hb in H.
      change (5 * 1024 * 1024 <? 5242880) with false in H.
      exec H; injection H as <- <-; eexists; reflexivity.
  - intros Hsz. unfold POST, POST_try. rewrite Hs, Hk, Hfd.
    cbn [bind await]. rewrite Hf, Hp.
    replace (5 * 1024 * 1024 <? size f) with true
      by (symmetry; apply Z.ltb_lt; lia).
    split; reflexivity.
Qed.

(** C7: with a session and a credential, a file whose name does not end in
    [.pdf] (in any letter case) is answered with 400
    [{ error: "Only PDF files are supported" }] and no remote call; a name
    that ends in [.pdf] in some letter case is never answered so. *)
Theorem pdf_extension_check
        (env : Env) (request : NextRequest) (session : Session)
        (apiKey : string) (fd : FormData) (f : File) :
  getSession env (headers request) = Returns (Some session) ->
  configured (USERESUME_API_KEY env) = Some apiKey ->
  formData request = Returns fd ->
  FormData_get fd "file" = Some (EntryFile f) ->
  (~ ends_in_pdf (name f) ->
   POST env request = ([], Returns not_pdf)
   /\ remote_calls (fst (POST env request)) = [])
  /\ (ends_in_pdf (name f) ->
      snd (POST env request) <> Returns not_pdf).
Proof.
  intros Hs Hk Hfd Hf. split.
  - intros Hn. apply endsWith_pdf_false in Hn.
    unfold POST, POST_try. rewrite Hs, Hk, Hfd. cbn [bind await].
    rewrite Hf, Hn. split; reflexivity.
  - intros Hp. apply endsWith_pdf in Hp.
    destruct (POST env request) as [trace r] eqn:H.
    unfold POST, POST_try in H. rewrite Hs, Hk, Hfd in H.
    cbn [bind await] in H. rewrite Hf, Hp in H.
    exec H; injection H as <- <-; cbn [snd]; other_response.
Qed.

(** Find the call the hypothesis [Hin : In call trace] speaks of, and
    identify what the collaborator returned for it. *)
Ltac locate Hin Hor :=
  simpl in Hin;
  repeat (destruct Hin as [Hin|Hin]; [try discriminate Hin|]);
  try contradiction;
  try (injection Hin as <-;
       match goal with
       | E : ?call = _ |- _ =>
           match type of Hor with
           | call = _ => rewrite Hor in E;
                         first [discriminate E | injection E as <-]
           end
       end).

(** The parse result is answered with [parse_failed] as soon as its data
    is falsy. *)
Lemma parse_falsy_stops
      (env : Env) (request : NextRequest) (trace : list Event)
      (r : outcome NextResponse) (apiKey : string)
      (params : ParseResumeParams) (result : ParseResult.t) :
  POST env request = (trace, r) ->
  configured (USERESUME_API_KEY env) = Some apiKey ->
  In (ParseResumeCall params) trace ->
  parseResume (useResume env apiKey) params = Returns result ->
  negb (ParseResult.success result)
  || negb (truthy (ParseResult.data result)) = true ->
  r = Returns parse_failed /\ filter is_create_call trace = [].
Proof.
  intros H Hk Hin Hor Hfail. unfold POST, POST_try in H. rewrite Hk in H.
  exec H; injection H as <- <-; locate Hin Hor;
    try congruence; split; reflexivity.
Qed.

(** C3: when the parse call returns a result with [success] false, or with
    no data, the response is 400 with the parse-failure message and the
    create call is not made. *)
Theorem parse_failure_stops_before_create
        (env : Env) (request : NextRequest) (trace : list Event)
        (r : outcome NextResponse) (apiKey : string)
        (params : ParseResumeParams) (result : ParseResult.t) :
  POST env request = (trace, r) ->
  configured (USERESUME_API_KEY env) = Some apiKey ->
  In (ParseResumeCall params) trace ->
  parseResume (useResume env apiKey) params = Returns result ->
  ParseResult.success result = false
  \/ ParseResult.data result = VUndefined
  \/ ParseResult.data result = VNull ->
  r = Returns parse_failed /\ filter is_create_call trace = [].
Proof.
  intros H Hk Hin Hor Hfail.
  apply (parse_falsy_stops env request trace r apiKey params result);
    try assumption.
  destruct Hfail as [E|[E|E]]; rewrite E; simpl;
    try reflexivity; apply orb_true_r.
Qed.

(** The create result is answered with [render_failed] as soon as the
    handler finds its [success] or its file URL falsy. *)
Lemma create_falsy_generic
      (env : Env) (request : NextRequest) (trace : list Event)
      (r : outcome NextResponse) (apiKey : string)
      (params : CreateResumeParams) (result : CreateResult.t) :
  POST env request = (trace, r) ->
  configured (USERESUME_API_KEY env) = Some apiKey ->
  In (CreateResumeCall params) trace ->
  createResume (useResume env apiKey) params = Returns result ->
  negb (CreateResult.success result)
  || negb (truthy (data_file_url result)) = true ->
  r = Returns render_failed.
Proof.
  intros H Hk Hin Hor Hb. unfold POST, POST_try in H. rewrite Hk in H.
  exec H; injection H as <- <-; locate Hin Hor;
    try congruence; reflexivity.
Qed.

(** C8: when the create call returns a result with [success] false, or
    with no populated file URL (no [data], or a [file_url] that is absent,
    [null] or the empty string), the response is 500 with the fixed body
    [{ error: "Failed to generate optimized resume" }], which holds nothing
    of the result. *)
Theorem create_failure_generic
        (env : Env) (request : NextRequest) (trace : list Event)
        (r : outcome NextResponse) (apiKey : string)
        (params : CreateResumeParams) (result : CreateResult.t) :
  POST env request = (trace, r) ->
  configured (USERESUME_API_KEY env) = Some apiKey ->
  In (CreateResumeCall params) trace ->
  createResume (useResume env apiKey) params = Returns result ->
  CreateResult.success result = false
  \/ CreateResult.data result = None
  \/ (exists d,
         CreateResult.data result = Some d
         /\ (file_url d = VUndefined
             \/ file_url d = VNull
             \/ file_url d = VStr "")) ->
  r = Returns render_failed.
Proof.
  intros H Hk Hin Hor Hfail.
  apply (create_falsy_generic env request trace r apiKey params result);
    try assumption.
  unfold data_file_url.
  destruct Hfail as [E|[E|(d & E & [Eu|[Eu|Eu]])]]; rewrite E;
    try rewrite Eu; simpl; try reflexivity; apply orb_true_r.
Qed.

(** C5: when the create call returns [success] true and a non-empty
    [file_url] (which it is only asked for after the parse call succeeded),
    the response is 200 with [success: true], [download_url] and
    [expires_at] taken from [file_url] and [file_url_expires_at], and the
    two credit counters taken from [meta], or [undefined] without it. *)
Theorem success_response
        (env : Env) (request : NextRequest) (trace : list Event)
        (r : outcome NextResponse) (apiKey : string)
        (params : CreateResumeParams) (result : CreateResult.t)
        (d : CreateData) (url : string) :
  POST env request = (trace, r) ->
  configured (USERESUME_API_KEY env) = Some apiKey ->
  In (CreateResumeCall params) trace ->
  createResume (useResume env apiKey) params = Returns result ->
  CreateResult.success result = true ->
  CreateResult.data result = Some d ->
  file_url d = VStr url ->
  url <> "" ->
  r = Returns
        {| status := 200;
           body :=
             VObj None
               [("success", VBool true);
                ("download_url", VStr url);
                ("expires_at", file_url_expires_at d);
                ("credits_used",
                  match CreateResult.meta result with
                  | Some m => credits_used m
                  | None => VUndefined
                  end);
                ("credits_remaining",
                  match CreateResult.meta result with
                  | Some m => credits_remaining m
                  | None => VUndefined
                  end)] |}.
Proof.
  intros H Hk Hin Hor Hsucc Hd Hurl Hne.
  unfold POST, POST_try in H. rewrite Hk in H.
  assert (Hb : negb (CreateResult.success result)
               || negb (truthy (data_file_url result)) = false).
  { unfold data_file_url. rewrite Hsucc, Hd, Hurl. simpl.
    apply String.eqb_neq in Hne. now rewrite Hne. }
  exec H; injection H as <- <-; locate Hin Hor; try congruence.
  unfold NextResponse_json, meta_credits_used, meta_credits_remaining.
  congruence.
Qed.

(** X8: an exception leaves the handler only from its [catch] block: the
    handler returns a response, unless the [try] block threw a
    [UseResumeError] whose status is neither 0 nor one a response with a
    body can have (200..599 other than 204, 205 and 304). *)
Theorem POST_escape_only_from_catch (env : Env) (request : NextRequest) :
  (exists response, snd (POST env request) = Returns response)
  \/ (exists trace message s,
         POST_try env request
         = (trace, Throws (UseResumeError message (Some s)))
         /\ s <> 0
         /\ ~ (200 <= s <= 599 /\ s <> 204 /\ s <> 205 /\ s <> 304)).
Proof.
  unfold POST. destruct (POST_try env request) as [trace r] eqn:H.
  destruct r as [a|[message [s|]|message]];
    cbn [try_catch POST_catch bind emit call snd].
  - left. eexists. reflexivity.
  - destruct (Z.eqb_spec s 0) as [->|Hne]; [left; eexists; reflexivity|].
    assert (Hs : status_or_500 (Some s) = s).
    { unfold status_or_500.
      now replace (s =? 0) with false by (symmetry; apply Z.eqb_neq; lia). }
    rewrite Hs.
    destruct (NextResponse_json _ (Some s)) as [response|e] eqn:E.
    + left. eexists. reflexivity.
    + right. exists trace, message, s. repeat split; try assumption.
      intros (Hr & H204 & H205 & H304).
      rewrite NextResponse_json_accepted in E by assumption. discriminate E.
  - left. eexists. reflexivity.
  - left. eexists. reflexivity.
Qed.

(** X9: the remote calls of one request are none, the parse call alone, or
    the parse call followed by the create call: each is made at most once
    (nothing is retried), and the create call never comes first. *)
Theorem remote_calls_shape (env : Env) (request : NextRequest) :
  remote_calls (fst (POST env request)) = []
  \/ (exists p, remote_calls (fst (POST env request)) = [ParseResumeCall p])
  \/ (exists p c,
         remote_calls (fst (POST env request))
         = [ParseResumeCall p; CreateResumeCall c]).
Proof.
  destruct (POST env request) as [trace r] eqn:H.
  unfold POST, POST_try in H.
  exec H; injection H as <- <-; cbn; eauto.
Qed.

(** Turn the outcome of a test of the handler into the fact it decides. *)
Ltac decided :=
  repeat match goal with
         | E : negb (endsWith (toLowerCase _) ".pdf") = false |- _ =>
             apply negb_false_iff, endsWith_pdf in E
         | E : (5 * 1024 * 1024 <? _) = false |- _ =>
             apply Z.ltb_ge in E; change (5 * 1024 * 1024) with 5242880 in E
         | E : negb _ || negb _ = false |- _ =>
             apply orb_false_elim in E; destruct E
         | E : negb _ = false |- _ => apply negb_false_iff in E
         end.

(** X10: a parse call is only made for a validated upload: there is a
    session, the credential is configured, the form holds a file under
    [file] whose name ends in [.pdf] and whose size is at most 5,242,880,
    its bytes were read, and the call carries their base64 text with the
    format hint [json]. *)
Theorem parse_call_requires_validation
        (env : Env) (request : NextRequest) (p : ParseResumeParams) :
  In (ParseResumeCall p) (fst (POST env request)) ->
  exists session apiKey fd f bytes,
    getSession env (headers request) = Returns (Some session)
    /\ configured (USERESUME_API_KEY env) = Some apiKey
    /\ formData request = Returns fd
    /\ FormData_get fd "file" = Some (EntryFile f)
    /\ ends_in_pdf (name f)
    /\ size f <= 5242880
    /\ arrayBuffer f = Returns bytes
    /\ p = {| file := toString_base64 bytes; parse_to := "json" |}.
Proof.
  intros Hin. destruct (POST env request) as [trace r] eqn:H.
  unfold POST, POST_try in H.
  exec H; injection H as <- <-; cbn [fst In] in Hin;
    repeat (destruct Hin as [Hin|Hin]; [try discriminate Hin|]);
    try contradiction;
    injection Hin as <-; decided;
    do 5 eexists; repeat split; try eassumption.
Qed.

(** X11: a create call is only made after a parse call that returned
    [success] with truthy data; it carries the converted data of that
    result, in which no [null] is left, and the fixed style
    [horizon]/[amber]/[inter]. *)
Theorem create_call_content
        (env : Env) (request : NextRequest) (c : CreateResumeParams) :
  In (CreateResumeCall c) (fst (POST env request)) ->
  exists apiKey p result,
    configured (USERESUME_API_KEY env) = Some apiKey
    /\ In (ParseResumeCall p) (fst (POST env request))
    /\ parseResume (useResume env apiKey) p = Returns result
    /\ ParseResult.success result = true
    /\ truthy (ParseResult.data result) = true
    /\ c = {| content := nullToUndefined (ParseResult.data result);
              style := {| template := "horizon";
                          template_color := "amber";
                          font := "inter" |} |}
    /\ null_free (content c) = true.
Proof.
  intros Hin. destruct (POST env request) as [trace r] eqn:H.
  unfold POST, POST_try in H.
  exec H; injection H as <- <-; cbn [fst In] in Hin |- *;
    repeat (destruct Hin as [Hin|Hin]; [try discriminate Hin|]);
    try contradiction;
    injection Hin as <-; decided;
    do 3 eexists;
    (split; [reflexivity|]);
    (split; [right; left; reflexivity|]);
    (split; [eassumption|]);
    repeat split; try assumption; apply nullToUndefined_null_free.
Qed.

(** X12: a response is either an error object [{ error: message }], or
    the success object; the success object comes with status 200, a truthy
    [download_url], and only after both remote calls were made. *)
Theorem response_shape
        (env : Env) (request : NextRequest) (response : NextResponse) :
  snd (POST env request) = Returns response ->
  (exists message, body response = error_body message)
  \/ (status response = 200
      /\ (exists p c,
            remote_calls (fst (POST env request))
            = [ParseResumeCall p; CreateResumeCall c])
      /\ exists url expires used remaining,
          truthy url = true
          /\ body response
             = VObj None
                 [("success", VBool true);
                  ("download_url", url);
                  ("expires_at", expires);
                  ("credits_used", used);
                  ("credits_remaining", remaining)]).
Proof.
  intros Hr. destruct (POST env request) as [trace r] eqn:H.
  cbn [snd] in Hr. subst r. unfold POST, POST_try in H.
  exec H; injection H as <- E; cbn [fst];
    try (left; apply NextResponse_json_returns in E; destruct E as [E _];
         eexists; exact E);
    subst response;
    try (left; eexists; reflexivity).
  right. decided. split; [reflexivity|]. split.
  - do 2 eexists. reflexivity.
  - do 4 eexists. split; [|reflexivity].
    match goal with
    | Hd : CreateResult.data ?cr = Some ?d,
      Ht : truthy (data_file_url ?cr) = true |- _ =>
        unfold data_file_url in Ht; rewrite Hd in Ht; exact Ht
    end.
Qed.

(** X13: the status of a response is 200, 400, 401 or 500, unless a
    [UseResumeError] was thrown, whose status, as an unsigned short (the
    remainder of its division by 65536), it then is. *)
Theorem response_status_codes
        (env : Env) (request : NextRequest) (response : NextResponse) :
  snd (POST env request) = Returns response ->
  In (status response) [200; 400; 401; 500]
  \/ exists trace message s,
      POST_try env request
      = (trace, Throws (UseResumeError message (Some s)))
      /\ status response = Z.rem s 65536.
Proof.
  intros Hr. unfold POST in Hr.
  destruct (POST_try env request) as [trace r] eqn:H.
  destruct r as [a|[message [s|]|message]];
    cbn [try_catch POST_catch bind emit call snd] in Hr.
  - injection Hr as <-. left. unfold POST_try in H.
    exec H; injection H as <- E; try discriminate E;
      subst a; cbn; auto 6.
  - apply NextResponse_json_returns in Hr. destruct Hr as [_ Hs].
    unfold status_or_500 in Hs.
    destruct (Z.eqb_spec s 0) as [->|Hne].
    + left. rewrite Hs. cbn. auto.
    + right. now exists trace, message, s.
  - apply NextResponse_json_returns in Hr. destruct Hr as [_ Hs].
    left. rewrite Hs. cbn. auto.
  - apply NextResponse_json_returns in Hr. destruct Hr as [_ Hs].
    left. rewrite Hs. cbn. auto.
Qed.

(** X14: when the form holds a text field under [file] instead of an upload,
    an empty text is answered like a missing file, with 400
    [{ error: "No file provided" }]; any other text makes the name test
    throw and is answered with 500 and the generic message.  No remote call
    is made. *)
Theorem text_field_instead_of_file
        (env : Env) (request : NextRequest) (session : Session)
        (apiKey : string) (fd : FormData) (text : string) :
  getSession env (headers request) = Returns (Some session) ->
  configured (USERESUME_API_KEY env) = Some apiKey ->
  formData request = Returns fd ->
  FormData_get fd "file" = Some (EntryString text) ->
  (text = "" -> POST env request = ([], Returns no_file))
  /\ (text <> "" ->
      POST env request
      = ([ConsoleError "Error optimizing resume:"], Returns internal_error)).
Proof.
  intros Hs Hk Hfd Hf. unfold POST, POST_try. rewrite Hs, Hk, Hfd.
  cbn [bind await]. rewrite Hf. split.
  - intros ->. reflexivity.
  - intros Hne. destruct text; [congruence|reflexivity].
Qed.

(** X15: a credential that is the empty string counts as missing: with a
    session the response is 500 [{ error: "Resume service not configured" }],
    the omission is logged, and the form is not read. *)
Theorem empty_credential_is_missing
        (env : Env) (request : NextRequest) (session : Session) :
  getSession env (headers request) = Returns (Some session) ->
  USERESUME_API_KEY env = None \/ USERESUME_API_KEY env = Some "" ->
  POST env request
  = ([ConsoleError "USERESUME_API_KEY environment variable not set"],
     Returns not_configured).
Proof.
  intros Hs Hk. unfold POST, POST_try. rewrite Hs.
  destruct Hk as [-> | ->]; reflexivity.
Qed.

(** X16: when the bytes of a validated upload cannot be read, no remote
    call is made; the failure is logged and, unless it is a
    [UseResumeError], answered with 500 and the generic message. *)
Theorem file_read_failure
        (env : Env) (request : NextRequest) (session : Session)
        (apiKey : string) (fd : FormData) (f : File) (e : exn) :
  getSession env (headers request) = Returns (Some session) ->
  configured (USERESUME_API_KEY env) = Some apiKey ->
  formData request = Returns fd ->
  FormData_get fd "file" = Some (EntryFile f) ->
  ends_in_pdf (name f) ->
  size f <= 5242880 ->
  arrayBuffer f = Throws e ->
  fst (POST env request) = [ConsoleError "Error optimizing resume:"]
  /\ (forall message,
         e = OtherError message ->
         snd (POST env request) = Returns internal_error).
Proof.
  intros Hs Hk Hfd Hf Hp Hsz Hb. apply endsWith_pdf in Hp.
  unfold POST, POST_try. rewrite Hs, Hk, Hfd. cbn [bind await].
  rewrite Hf, Hp.
  replace (5 * 1024 * 1024 <? size f) with false
    by (symmetry; apply Z.ltb_ge; lia).
  rewrite Hb. split.
  - destruct e; reflexivity.
  - intros message ->. reflexivity.
Qed.

(** X17: every size up to 5,242,880, zero included, passes the size test:
    once the bytes of such a validated upload are read, the parse call is
    made with their base64 text. *)
Theorem size_within_limit_passes
        (env : Env) (request : NextRequest) (session : Session)
        (apiKey : string) (fd : FormData) (f : File) (bytes : list byte) :
  getSession env (headers request) = Returns (Some session) ->
  configured (USERESUME_API_KEY env) = Some apiKey ->
  formData request = Returns fd ->
  FormData_get fd "file" = Some (EntryFile f) ->
  ends_in_pdf (name f) ->
  size f <= 5242880 ->
  arrayBuffer f = Returns bytes ->
  exists rest,
    fst (POST env request)
    = ConsoleLog "Parsing uploaded resume..."
        :: ParseResumeCall {| file := toString_base64 bytes;
                              parse_to := "json" |}
        :: rest.
Proof.
  intros Hs Hk Hfd Hf Hp Hsz Hb. apply endsWith_pdf in Hp.
  destruct (POST env request) as [trace r] eqn:H.
  unfold POST, POST_try in H. rewrite Hs, Hk, Hfd in H.
  cbn [bind await] in H. rewrite Hf, Hp, Hb in H.
  replace (5 * 1024 * 1024 <? size f) with false in H
    by (symmetry; apply Z.ltb_ge; lia).
  exec H; injection H as <- <-; eexists; reflexivity.
Qed.

End Handler.

(** * The theorems at the scenarios *)

(** A file of exactly 5,242,880 bytes reaches the parse call; one byte more
    is refused. *)
Lemma size_limit_boundary_witness :
  (snd (POST Scenario.env (Scenario.upload Scenario.resume_at_limit))
   <> Returns too_large
   /\ exists rest,
       fst (POST Scenario.env (Scenario.upload Scenario.resume_at_limit))
       = ConsoleLog "Parsing uploaded resume..."
           :: ParseResumeCall
                {| file := toString_base64 (repeat x00 (N.to_nat 5242880));
                   parse_to := "json" |}
           :: rest)
  /\ POST Scenario.env (Scenario.upload Scenario.resume_over_limit)
     = ([], Returns too_large).
Proof.
  split.
  - destruct (size_limit_boundary
                Scenario.env (Scenario.upload Scenario.resume_at_limit)
                Scenario.session Scenario.apiKey
                (Scenario.form_of Scenario.resume_at_limit)
                Scenario.resume_at_limit
                eq_refl eq_refl eq_refl eq_refl
                (proj1 (endsWith_pdf "resume.pdf") eq_refl))
      as [Hat _].
    destruct (Hat eq_refl) as [Hpass Hcall].
    split; [exact Hpass|].
    exact (Hcall _ eq_refl).
  - destruct (size_limit_boundary
                Scenario.env (Scenario.upload Scenario.resume_over_limit)
                Scenario.session Scenario.apiKey
                (Scenario.form_of Scenario.resume_over_limit)
                Scenario.resume_over_limit
                eq_refl eq_refl eq_refl eq_refl
                (proj1 (endsWith_pdf "resume.pdf") eq_refl))
      as [_ Hover].
    apply Hover. reflexivity.
Defined.

(** An unreadable PDF: 400, and the create call is not made. *)
Lemma parse_failure_stops_before_create_witness :
  snd (POST (Scenario.env_with Scenario.client_unreadable)
            (Scenario.upload Scenario.resume_pdf))
  = Returns parse_failed
  /\ filter is_create_call
            (fst (POST (Scenario.env_with Scenario.client_unreadable)
                       (Scenario.upload Scenario.resume_pdf)))
     = [].
Proof.
  apply (parse_failure_stops_before_create
           (Scenario.env_with Scenario.client_unreadable)
           (Scenario.upload Scenario.resume_pdf)
           _ _ Scenario.apiKey Scenario.parseParams
           {| ParseResult.success := false;
              ParseResult.data := VUndefined |}).
  - reflexivity.
  - reflexivity.
  - vm_compute. right. left. reflexivity.
  - reflexivity.
  - left. reflexivity.
Defined.

(** The parse call throws a remote-API error with status 429 and message
    "rate limited": the response is 429 with
    [{ error: "Resume API error: rate limited" }]. *)
Lemma catch_maps_exceptions_witness :
  snd (POST (Scenario.env_with Scenario.client_rate_limited)
            (Scenario.upload Scenario.resume_pdf))
  = Returns {| status := 429;
               body := error_body "Resume API error: rate limited" |}.
Proof.
  refine (proj1 (proj2 (catch_maps_exceptions
                          (Scenario.env_with Scenario.client_rate_limited)
                          (Scenario.upload Scenario.resume_pdf)
                          [ConsoleLog "Parsing uploaded resume...";
                           ParseResumeCall Scenario.parseParams]
                          (UseResumeError "rate limited" (Some 429))
                          _))
                "rate limited" 429 eq_refl _ _ _ _).
  - reflexivity.
  - lia.
  - discriminate.
  - discriminate.
  - discriminate.
Defined.

(** C4 as it was stated fails: a [UseResumeError] that carries the status
    204, or 42, is not answered with that status.  [NextResponse.json]
    throws in the [catch] block, and the exception leaves the handler. *)
Lemma catch_status_not_accepted :
  POST_try (Scenario.env_with (Sample.client_failing "no content" 204))
           (Scenario.upload Scenario.resume_pdf)
  = ([ConsoleLog "Parsing uploaded resume...";
      ParseResumeCall Scenario.parseParams],
     Throws (UseResumeError "no content" (Some 204)))
  /\ snd (POST (Scenario.env_with (Sample.client_failing "no content" 204))
               (Scenario.upload Scenario.resume_pdf))
     = Throws (OtherError "TypeError")
  /\ snd (POST (Scenario.env_with (Sample.client_failing "no content" 204))
               (Scenario.upload Scenario.resume_pdf))
     <> Returns {| status := 204;
                   body := error_body "Resume API error: no content" |}
  /\ snd (POST (Scenario.env_with (Sample.client_failing "odd" 42))
               (Scenario.upload Scenario.resume_pdf))
     = Throws (OtherError "RangeError")
  /\ snd (POST (Scenario.env_with (Sample.client_failing "odd" 42))
               (Scenario.upload Scenario.resume_pdf))
     <> Returns {| status := 42;
                   body := error_body "Resume API error: odd" |}.
Proof.
  repeat split; try reflexivity; vm_compute; discriminate.
Qed.

(** The end-to-end scenario of the specification: 200 with the URL, the
    expiry and the credit counters of the create result. *)
Lemma success_response_witness :
  snd (POST Scenario.env (Scenario.upload Scenario.resume_pdf))
  = Returns
      {| status := 200;
         body :=
           VObj None
             [("success", VBool true);
              ("download_url", VStr "https://x/y.pdf");
              ("expires_at", VStr "2025-01-01T00:00:00Z");
              ("credits_used", VNum 1%float);
              ("credits_remaining", VNum 9%float)] |}.
Proof.
  apply (success_response
           Scenario.env (Scenario.upload Scenario.resume_pdf)
           (fst (POST Scenario.env (Scenario.upload Scenario.resume_pdf))) _
           Scenario.apiKey Scenario.createParams Scenario.created
           Scenario.createData "https://x/y.pdf").
  - reflexivity.
  - reflexivity.
  - vm_compute. do 3 right. left. reflexivity.
  - reflexivity.
  - reflexivity.
  - reflexivity.
  - reflexivity.
  - discriminate.
Defined.

(** Nobody is signed in: 401 and no remote call. *)
Lemma no_session_unauthorized_witness :
  POST Scenario.env_anonymous (Scenario.upload Scenario.resume_pdf)
  = ([], Returns unauthorized)
  /\ remote_calls
       (fst (POST Scenario.env_anonymous (Scenario.upload Scenario.resume_pdf)))
     = [].
Proof.
  apply (no_session_unauthorized
           Scenario.env_anonymous (Scenario.upload Scenario.resume_pdf)).
  reflexivity.
Defined.

(** [resume.docx] is refused; [Resume.PDF] is not. *)
Lemma pdf_extension_check_witness :
  POST Scenario.env (Scenario.upload Scenario.resume_docx)
  = ([], Returns not_pdf)
  /\ snd (POST Scenario.env (Scenario.upload Scenario.resume_upper))
     <> Returns not_pdf.
Proof.
  split.
  - apply (pdf_extension_check
             Scenario.env (Scenario.upload Scenario.resume_docx)
             Scenario.session Scenario.apiKey
             (Scenario.form_of Scenario.resume_docx) Scenario.resume_docx
             eq_refl eq_refl eq_refl eq_refl).
    apply endsWith_pdf_false. reflexivity.
  - apply (pdf_extension_check
             Scenario.env (Scenario.upload Scenario.resume_upper)
             Scenario.session Scenario.apiKey
             (Scenario.form_of Scenario.resume_upper) Scenario.resume_upper
             eq_refl eq_refl eq_refl eq_refl).
    apply endsWith_pdf. reflexivity.
Defined.

(** The create call reports a failure, or reports success without data,
    or with a file URL that is [null] or empty: 500 with the fixed message
    each time. *)
Lemma create_failure_generic_witness :
  snd (POST (Scenario.env_with Scenario.client_not_rendered)
            (Scenario.upload Scenario.resume_pdf))
  = Returns render_failed
  /\ snd (POST (Scenario.env_with
                  (Sample.client_creating Sample.created_without_data))
               (Scenario.upload Scenario.resume_pdf))
     = Returns render_failed
  /\ snd (POST (Scenario.env_with
                  (Sample.client_creating (Sample.created_with_url VNull)))
               (Scenario.upload Scenario.resume_pdf))
     = Returns render_failed
  /\ snd (POST (Scenario.env_with
                  (Sample.client_creating
                     (Sample.created_with_url (VStr ""))))
               (Scenario.upload Scenario.resume_pdf))
     = Returns render_failed.
Proof.
  split; [|split; [|split]].
  - apply (create_failure_generic
             (Scenario.env_with Scenario.client_not_rendered)
             (Scenario.upload Scenario.resume_pdf)
             (fst (POST (Scenario.env_with Scenario.client_not_rendered)
                        (Scenario.upload Scenario.resume_pdf))) _
             Scenario.apiKey Scenario.createParams Scenario.not_created).
    + reflexivity.
    + reflexivity.
    + vm_compute. do 3 right. left. reflexivity.
    + reflexivity.
    + left. reflexivity.
  - apply (create_failure_generic
             (Scenario.env_with
                (Sample.client_creating Sample.created_without_data))
             (Scenario.upload Scenario.resume_pdf)
             (fst (POST (Scenario.env_with
                           (Sample.client_creating
                              Sample.created_without_data))
                        (Scenario.upload Scenario.resume_pdf))) _
             Scenario.apiKey Scenario.createParams
             Sample.created_without_data).
    + reflexivity.
    + reflexivity.
    + vm_compute. do 3 right. left. reflexivity.
    + reflexivity.
    + right. left. reflexivity.
  - apply (create_failure_generic
             (Scenario.env_with
                (Sample.client_creating (Sample.created_with_url VNull)))
             (Scenario.upload Scenario.resume_pdf)
             (fst (POST (Scenario.env_with
                           (Sample.client_creating
                              (Sample.created_with_url VNull)))
                        (Scenario.upload Scenario.resume_pdf))) _
             Scenario.apiKey Scenario.createParams
             (Sample.created_with_url VNull)).
    + reflexivity.
    + reflexivity.
    + vm_compute. do 3 right. left. reflexivity.
    + reflexivity.
    + right. right. eexists. split; [reflexivity|].
      right. left. reflexivity.
  - apply (create_failure_generic
             (Scenario.env_with
                (Sample.client_creating (Sample.created_with_url (VStr ""))))
             (Scenario.upload Scenario.resume_pdf)
             (fst (POST (Scenario.env_with
                           (Sample.client_creating
                              (Sample.created_with_url (VStr ""))))
                        (Scenario.upload Scenario.resume_pdf))) _
             Scenario.apiKey Scenario.createParams
             (Sample.created_with_url (VStr ""))).
    + reflexivity.
    + reflexivity.
    + vm_compute. do 3 right. left. reflexivity.
    + reflexivity.
    + right. right. eexists. split; [reflexivity|].
      right. right. reflexivity.
Defined.

(** No session and no credential: 401.  A session, no credential and a
    large [.docx]: 500 "Resume service not configured". *)
Lemma guard_precedence_witness :
  snd (POST Scenario.env_anonymous (Scenario.upload Scenario.resume_docx_large))
  = Returns unauthorized
  /\ snd (POST Scenario.env_unconfigured
               (Scenario.upload Scenario.resume_docx_large))
     = Returns not_configured.
Proof.
  split.
  - apply (proj1 (guard_precedence
                    Scenario.env_anonymous
                    (Scenario.upload Scenario.resume_docx_large))).
    reflexivity.
  - apply (proj1 (proj2 (guard_precedence
                           Scenario.env_unconfigured
                           (Scenario.upload Scenario.resume_docx_large)))
             Scenario.session).
    + reflexivity.
    + reflexivity.
Defined.

(** Session resolution throws, or the body is not multipart form data:
    500 with the generic message. *)
Lemma early_exception_internal_error_witness :
  POST Scenario.env_auth_down (Scenario.upload Scenario.resume_pdf)
  = ([ConsoleError "Error optimizing resume:"], Returns internal_error)
  /\ POST Scenario.env Scenario.not_multipart
     = ([ConsoleError "Error optimizing resume:"], Returns internal_error).
Proof.
  split.
  - apply (proj1 (early_exception_internal_error
                    Scenario.env_auth_down
                    (Scenario.upload Scenario.resume_pdf)
                    "connection refused")).
    reflexivity.
  - apply (proj2 (early_exception_internal_error
                    Scenario.env Scenario.not_multipart "TypeError")
             Scenario.session Scenario.apiKey).
    + reflexivity.
    + reflexivity.
    + reflexivity.
Defined.

(** * Further properties of [nullToUndefined] *)

Section Conversion.

Lemma props_set_keys key v props :
  map fst (props_set key v props)
  = if existsb (String.eqb key) (map fst props) then map fst props
    else (map fst props ++ [key])%list.
Proof.
  induction props as [|[k w] rest IH]; simpl; [reflexivity|].
  rewrite (String.eqb_sym key k).
  destruct (String.eqb k key); simpl; [reflexivity|].
  rewrite IH. now destruct (existsb (String.eqb key) (map fst rest)).
Qed.

Lemma distinct_snoc key keys :
  distinct keys = true ->
  existsb (String.eqb key) keys = false ->
  distinct (keys ++ [key]) = true.
Proof.
  induction keys as [|k rest IH]; simpl; intros Hd Hk; [reflexivity|].
  apply andb_prop in Hd as [Hk' Hd].
  apply orb_false_elim in Hk as [Hkk Hk].
  rewrite IH by assumption. rewrite andb_true_r.
  apply negb_true_iff. apply negb_true_iff in Hk'.
  rewrite existsb_app, Hk'. simpl.
  now rewrite String.eqb_sym, Hkk.
Qed.

Lemma props_set_settled key v props :
  own_key (key, v) = true -> settled v = true ->
  forallb (fun kv => own_key kv && settled (snd kv)) props = true ->
  forallb (fun kv => own_key kv && settled (snd kv)) (props_set key v props)
  = true.
Proof.
  intros Hk Hv. induction props as [|[k w] rest IH];
    cbn [props_set forallb snd]; intros H.
  - now rewrite Hk, Hv.
  - apply andb_prop in H as [Hw Hrest].
    destruct (String.eqb_spec k key) as [->|Hne]; cbn [forallb snd].
    + now rewrite Hk, Hv, Hrest.
    + now rewrite Hw, IH.
Qed.

Lemma assign_settled result key v :
  settled v = true -> settled_object result = true ->
  settled_object (assign result key v) = true.
Proof.
  destruct result as [proto props]. unfold settled_object, assign.
  simpl. intros Hv H.
  destruct (String.eqb key "__proto__") eqn:Hk.
  - destruct (is_object v); exact H.
  - apply andb_prop in H as [Hd Hp]. simpl.
    rewrite props_set_keys, props_set_settled; auto.
    + rewrite andb_true_r.
      destruct (existsb (String.eqb key) (map fst props)) eqn:E;
        [assumption|now apply distinct_snoc].
    + unfold own_key. simpl. now rewrite Hk.
Qed.

Lemma assign_loop_settled (f : value -> value) props : forall result,
  Forall (fun kv => settled (f (snd kv)) = true) props ->
  settled_object result = true ->
  settled_object
    (fold_left (fun result kv => assign result (fst kv) (f (snd kv)))
               props result) = true.
Proof.
  induction props as [|kv rest IH]; simpl; intros result Hf Hr; [exact Hr|].
  inversion Hf; subst. apply IH; [assumption|].
  now apply assign_settled.
Qed.

Lemma nullToUndefined_settled v : settled (nullToUndefined v) = true.
Proof.
  induction v as [| | | | |elems IH|proto props _ IH] using value_ind';
    simpl; try reflexivity.
  - rewrite forallb_map'. apply forallb_forall.
    rewrite Forall_forall in IH. auto.
  - pose proof (assign_loop_settled nullToUndefined props (None, []) IH
                  eq_refl) as H.
    destruct (fold_left _ props (None, [])) as [proto' result]. exact H.
Qed.

Lemma normalize_spec_null_free v :
  null_free v = true -> normalize_spec v = v.
Proof.
  induction v as [| | | | |elems IH|proto props _ IH] using value_ind';
    simpl; intros H; try reflexivity; try discriminate.
  - f_equal. rewrite <- (map_id elems) at 2. apply map_ext_in.
    rewrite Forall_forall in IH. rewrite forallb_forall in H. auto.
  - apply andb_prop in H as [_ H]. f_equal.
    rewrite <- (map_id props) at 2. apply map_ext_in. intros [k w] Hin.
    simpl. f_equal. rewrite Forall_forall in IH.
    rewrite forallb_forall in H. apply (IH _ Hin). apply (H _ Hin).
Qed.

(** On a settled value the loop never meets [__proto__]: the result is a
    value of [JSON.parse] again, without [__proto__] keys. *)
Lemma nullToUndefined_of_settled v :
  settled v = true ->
  json_value (nullToUndefined v) = true
  /\ proto_free (nullToUndefined v) = true.
Proof.
  induction v as [| | | | |elems IH|proto props _ IH] using value_ind';
    intros Hs; try (split; reflexivity).
  - simpl in *. rewrite !forallb_map'. rewrite Forall_forall in IH.
    rewrite forallb_forall in Hs.
    split; apply forallb_forall; intros x Hx; apply (IH x Hx (Hs x Hx)).
  - simpl in Hs. apply andb_prop in Hs as [Hd Hs].
    rewrite forallb_and in Hs. apply andb_prop in Hs as [Hk Hs].
    change (nullToUndefined (VObj proto props))
      with (nullToUndefined (VObj None props)).
    rewrite nullToUndefined_object by assumption.
    destruct (proto_free_props props Hk) as [-> ->]. simpl.
    rewrite map_fst_values, Hd, !forallb_map'. simpl.
    rewrite Forall_forall in IH. rewrite forallb_forall in Hs, Hk.
    split; apply forallb_forall; intros kv Hin.
    + apply (IH kv Hin (Hs kv Hin)).
    + specialize (Hk kv Hin). unfold own_key in Hk. rewrite Hk. simpl.
      apply (IH kv Hin (Hs kv Hin)).
Qed.

Lemma nullToUndefined_is_object v :
  is_object (nullToUndefined v) = is_object v.
Proof.
  destruct v; simpl; try reflexivity.
  now destruct (fold_left _ props (None, [])).
Qed.

Lemma props_get_converted (f : value -> value) key props :
  key <> "__proto__" ->
  props_get key (map (fun kv => (fst kv, f (snd kv))) (filter own_key props))
  = option_map f (props_get key props).
Proof.
  intros Hkey. induction props as [|[k w] rest IH];
    cbn [filter props_get]; [reflexivity|].
  unfold own_key at 1. cbn [fst].
  destruct (String.eqb k "__proto__") eqn:E;
    cbn [negb map props_get fst snd].
  - apply String.eqb_eq in E. subst k.
    destruct (String.eqb_spec "__proto__" key); [congruence|exact IH].
  - destruct (String.eqb k key); [reflexivity|exact IH].
Qed.

Lemma props_get_proto_filtered props :
  props_get "__proto__" (filter own_key props) = None.
Proof.
  induction props as [|[k w] rest IH]; cbn [filter props_get];
    [reflexivity|].
  unfold own_key at 1. cbn [fst].
  destruct (String.eqb k "__proto__") eqn:E; cbn [negb props_get];
    [exact IH|].
  now rewrite E.
Qed.

Lemma props_get_map_none (f : value -> value) key props :
  props_get key props = None ->
  props_get key (map (fun kv => (fst kv, f (snd kv))) props) = None.
Proof.
  induction props as [|[k w] rest IH]; cbn [map props_get fst snd];
    [reflexivity|].
  destruct (String.eqb k key); [discriminate|exact IH].
Qed.

(** X1: for an object with distinct keys, the own entries of the result are
    the entries of the input other than [__proto__], in their order, each
    value converted; the prototype of the result is the converted
    [__proto__] entry when that is an array or an object, and the default
    one otherwise.  The prototype of the input plays no part. *)
Theorem nullToUndefined_entries
        (proto : option value) (props : list (string * value)) :
  distinct (map fst props) = true ->
  nullToUndefined (VObj proto props)
  = VObj (match props_get "__proto__" props with
          | Some w => if is_object w then Some (nullToUndefined w) else None
          | None => None
          end)
         (map (fun kv => (fst kv, nullToUndefined (snd kv)))
              (filter own_key props)).
Proof.
  intros Hd.
  change (nullToUndefined (VObj proto props))
    with (nullToUndefined (VObj None props)).
  rewrite nullToUndefined_object by assumption.
  destruct (props_get "__proto__" props) as [w|]; [|reflexivity].
  now rewrite nullToUndefined_is_object.
Qed.

(** X2: for an object with distinct keys, reading an own property of the
    result under a key other than [__proto__] gives the converted value of
    that property of the input, and nothing when the input has none; under
    [__proto__] the result has no own property. *)
Theorem nullToUndefined_lookup
        (proto : option value) (props : list (string * value))
        (key : string) :
  distinct (map fst props) = true ->
  (key <> "__proto__" ->
   own_property (nullToUndefined (VObj proto props)) key
   = option_map nullToUndefined (props_get key props))
  /\ own_property (nullToUndefined (VObj proto props)) "__proto__" = None.
Proof.
  intros Hd.
  change (nullToUndefined (VObj proto props))
    with (nullToUndefined (VObj None props)).
  rewrite nullToUndefined_object by assumption. cbn [own_property]. split.
  - intros Hkey. now apply props_get_converted.
  - apply props_get_map_none, props_get_proto_filtered.
Qed.

(** X3: on a value of [JSON.parse] without [__proto__] keys the result is
    such a value again, and converting it once more changes nothing. *)
Theorem nullToUndefined_json_closed (v : value) :
  json_value v = true -> proto_free v = true ->
  json_value (nullToUndefined v) = true
  /\ proto_free (nullToUndefined v) = true
  /\ nullToUndefined (nullToUndefined v) = nullToUndefined v.
Proof.
  intros Hj Hp. rewrite (nullToUndefined_normalize v Hj Hp).
  pose proof (normalize_spec_json v Hj) as Hj'.
  pose proof (normalize_spec_proto_free v Hp) as Hp'.
  repeat split; try assumption.
  rewrite (nullToUndefined_normalize _ Hj' Hp').
  apply normalize_spec_idempotent.
Qed.

(** X4: whatever the input, the result holds no [null], at any depth and in
    its prototype, and none of its objects, through array elements and own
    properties, has an own property named [__proto__] or two properties of
    one name. *)
Theorem nullToUndefined_result_invariants (v : value) :
  null_free (nullToUndefined v) = true
  /\ settled (nullToUndefined v) = true.
Proof.
  split.
  - apply nullToUndefined_null_free.
  - apply nullToUndefined_settled.
Qed.

(** X5: whatever the input, the conversion is stable from its second
    application on: a third one returns what the second returned. *)
Theorem nullToUndefined_stable_after_two (v : value) :
  nullToUndefined (nullToUndefined (nullToUndefined v))
  = nullToUndefined (nullToUndefined v).
Proof.
  set (u := nullToUndefined v).
  destruct (nullToUndefined_of_settled u (nullToUndefined_settled v))
    as [Hj Hp].
  rewrite (nullToUndefined_normalize _ Hj Hp).
  apply normalize_spec_null_free. apply nullToUndefined_null_free.
Qed.

(** X6: a value of [JSON.parse] without [__proto__] keys is returned
    unchanged exactly when it holds no [null]. *)
Theorem nullToUndefined_fixed_point (v : value) :
  json_value v = true -> proto_free v = true ->
  (nullToUndefined v = v <-> null_free v = true).
Proof.
  intros Hj Hp. split.
  - intros H. rewrite <- H. apply nullToUndefined_null_free.
  - intros Hn. rewrite (nullToUndefined_normalize v Hj Hp).
    now apply normalize_spec_null_free.
Qed.

(** X7: on a value of [JSON.parse] without [__proto__] keys the code is the
    structural map: [null] becomes [undefined], an array is converted
    element by element, an object value by value under the same keys in
    the same order, and any other scalar is kept. *)
Theorem nullToUndefined_structural (v : value) :
  json_value v = true -> proto_free v = true ->
  nullToUndefined v = normalize_spec v
  /\ Object_keys (nullToUndefined v) = Object_keys v.
Proof.
  intros Hj Hp. split.
  - now apply nullToUndefined_normalize.
  - now apply nullToUndefined_keys.
Qed.

End Conversion.

(** The properties at the sample values. *)

Lemma nullToUndefined_entries_witness :
  nullToUndefined (VObj None Sample.polluted)
  = VObj (Some (VObj None [("admin", VBool true)]))
         [("name", VStr "A"); ("skills", VUndefined)].
Proof.
  exact (nullToUndefined_entries None Sample.polluted eq_refl).
Defined.

Lemma nullToUndefined_lookup_witness :
  own_property (nullToUndefined (VObj None Sample.polluted)) "skills"
  = Some VUndefined
  /\ own_property (nullToUndefined (VObj None Sample.polluted)) "__proto__"
     = None.
Proof.
  destruct (nullToUndefined_lookup None Sample.polluted "skills" eq_refl)
    as [Hget Hproto].
  split; [|exact Hproto].
  apply Hget. discriminate.
Defined.

Lemma nullToUndefined_json_closed_witness :
  json_value (nullToUndefined Sample.resume) = true
  /\ proto_free (nullToUndefined Sample.resume) = true
  /\ nullToUndefined (nullToUndefined Sample.resume)
     = nullToUndefined Sample.resume.
Proof.
  exact (nullToUndefined_json_closed Sample.resume eq_refl eq_refl).
Defined.

Lemma nullToUndefined_fixed_point_witness :
  nullToUndefined Sample.plain = Sample.plain
  /\ nullToUndefined Sample.resume <> Sample.resume.
Proof.
  split.
  - apply (nullToUndefined_fixed_point Sample.plain eq_refl eq_refl).
    reflexivity.
  - intros H.
    apply (nullToUndefined_fixed_point Sample.resume eq_refl eq_refl) in H.
    discriminate H.
Defined.

Lemma nullToUndefined_structural_witness :
  nullToUndefined Sample.resume = normalize_spec Sample.resume
  /\ Object_keys (nullToUndefined Sample.resume) = ["name"; "skills"; "jobs"].
Proof.
  exact (nullToUndefined_structural Sample.resume eq_refl eq_refl).
Defined.

(** * Further properties of the file-name test *)

Section NameTest.

Lemma toLowerCase_length s :
  String.length (toLowerCase s) = String.length s.
Proof. induction s as [|c s IH]; simpl; [reflexivity|now rewrite IH]. Qed.

Lemma endsWith_short s suffix :
  (String.length s < String.length suffix)%nat -> endsWith s suffix = false.
Proof.
  intros H. unfold endsWith.
  destruct (Nat.leb_spec (String.length suffix) (String.length s));
    [lia|reflexivity].
Qed.

Lemma endsWith_same_length s suffix :
  String.length s = String.length suffix ->
  endsWith s suffix = String.eqb s suffix.
Proof.
  intros H. unfold endsWith. rewrite H, Nat.leb_refl, Nat.sub_diag.
  now rewrite <- H, substring_all.
Qed.

(** X18: the test on the file name reads its last four characters only,
    without regard to letter case: a name shorter than four characters is
    refused, and a longer one is accepted exactly when its last four
    characters are [.pdf] in lower case. *)
Theorem pdf_test_last_four :
  (forall name,
      (String.length name < 4)%nat ->
      endsWith (toLowerCase name) ".pdf" = false)
  /\ (forall front last4,
         String.length last4 = 4%nat ->
         endsWith (toLowerCase (front ++ last4)) ".pdf"
         = String.eqb (toLowerCase last4) ".pdf").
Proof.
  split.
  - intros name H. apply endsWith_short.
    rewrite toLowerCase_length. exact H.
  - intros front last4 H. induction front as [|c front IH].
    + apply endsWith_same_length. now rewrite toLowerCase_length.
    + change (toLowerCase (String c front ++ last4))
        with (String (toLowerCase_ascii c) (toLowerCase (front ++ last4))).
      rewrite endsWith_cons, IH.
      destruct (String.eqb (String (toLowerCase_ascii c)
                                   (toLowerCase (front ++ last4))) ".pdf")
               eqn:E; [|reflexivity].
      apply eqb_length in E. cbn [String.length] in E.
      rewrite toLowerCase_length in E.
      assert (Hlen : forall a b,
                 String.length (a ++ b)
                 = (String.length a + String.length b)%nat).
      { clear. intros a b. induction a as [|x a IHa]; simpl;
          [reflexivity|now rewrite IHa]. }
      rewrite Hlen, H in E. lia.
Qed.

End NameTest.

Lemma pdf_test_last_four_witness :
  endsWith (toLowerCase "pdf") ".pdf" = false
  /\ endsWith (toLowerCase ("archive.tar" ++ ".PdF")) ".pdf"
     = String.eqb (toLowerCase ".PdF") ".pdf".
Proof.
  split.
  - apply (proj1 pdf_test_last_four "pdf"). simpl. lia.
  - apply (proj2 pdf_test_last_four "archive.tar" ".PdF"). reflexivity.
Defined.

(** * The further properties of [POST] at the scenarios *)

Lemma parse_call_requires_validation_witness :
  exists session apiKey fd f bytes,
    getSession Scenario.env (headers (Scenario.upload Scenario.resume_pdf))
    = Returns (Some session)
    /\ configured (USERESUME_API_KEY Scenario.env) = Some apiKey
    /\ formData (Scenario.upload Scenario.resume_pdf) = Returns fd
    /\ FormData_get fd "file" = Some (EntryFile f)
    /\ ends_in_pdf (name f)
    /\ size f <= 5242880
    /\ arrayBuffer f = Returns bytes
    /\ Scenario.parseParams
       = {| file := toString_base64 bytes; parse_to := "json" |}.
Proof.
  apply (parse_call_requires_validation
           Scenario.env (Scenario.upload Scenario.resume_pdf)
           Scenario.parseParams).
  vm_compute. right. left. reflexivity.
Defined.

Lemma create_call_content_witness :
  exists apiKey p result,
    configured (USERESUME_API_KEY Scenario.env) = Some apiKey
    /\ In (ParseResumeCall p)
          (fst (POST Scenario.env (Scenario.upload Scenario.resume_pdf)))
    /\ parseResume (useResume Scenario.env apiKey) p = Returns result
    /\ ParseResult.success result = true
    /\ truthy (ParseResult.data result) = true
    /\ Scenario.createParams
       = {| content := nullToUndefined (ParseResult.data result);
            style := {| template := "horizon";
                        template_color := "amber";
                        font := "inter" |} |}
    /\ null_free (content Scenario.createParams) = true.
Proof.
  apply (create_call_content
           Scenario.env (Scenario.upload Scenario.resume_pdf)
           Scenario.createParams).
  vm_compute. do 3 right. left. reflexivity.
Defined.

Lemma response_shape_witness :
  (exists message, body Sample.optimized = error_body message)
  \/ (status Sample.optimized = 200
      /\ (exists p c,
            remote_calls
              (fst (POST Scenario.env (Scenario.upload Scenario.resume_pdf)))
            = [ParseResumeCall p; CreateResumeCall c])
      /\ exists url expires used remaining,
          truthy url = true
          /\ body Sample.optimized
             = VObj None
                 [("success", VBool true);
                  ("download_url", url);
                  ("expires_at", expires);
                  ("credits_used", used);
                  ("credits_remaining", remaining)]).
Proof.
  apply (response_shape
           Scenario.env (Scenario.upload Scenario.resume_pdf)
           Sample.optimized).
  reflexivity.
Defined.

Lemma response_status_codes_witness :
  In (status Sample.rate_limited) [200; 400; 401; 500]
  \/ exists trace message s,
      POST_try (Scenario.env_with Scenario.client_rate_limited)
               (Scenario.upload Scenario.resume_pdf)
      = (trace, Throws (UseResumeError message (Some s)))
      /\ status Sample.rate_limited = Z.rem s 65536.
Proof.
  apply (response_status_codes
           (Scenario.env_with Scenario.client_rate_limited)
           (Scenario.upload Scenario.resume_pdf)
           Sample.rate_limited).
  reflexivity.
Defined.

Lemma text_field_instead_of_file_witness :
  POST Scenario.env (Sample.text_upload "") = ([], Returns no_file)
  /\ POST Scenario.env (Sample.text_upload "resume.pdf")
     = ([ConsoleError "Error optimizing resume:"], Returns internal_error).
Proof.
  split.
  - apply (proj1 (text_field_instead_of_file
                    Scenario.env (Sample.text_upload "")
                    Scenario.session Scenario.apiKey
                    [("file", EntryString "")] ""
                    eq_refl eq_refl eq_refl eq_refl)).
    reflexivity.
  - apply (proj2 (text_field_instead_of_file
                    Scenario.env (Sample.text_upload "resume.pdf")
                    Scenario.session Scenario.apiKey
                    [("file", EntryString "resume.pdf")] "resume.pdf"
                    eq_refl eq_refl eq_refl eq_refl)).
    discriminate.
Defined.

Lemma empty_credential_is_missing_witness :
  POST Sample.env_empty_key (Scenario.upload Scenario.resume_pdf)
  = ([ConsoleError "USERESUME_API_KEY environment variable not set"],
     Returns not_configured).
Proof.
  apply (empty_credential_is_missing
           Sample.env_empty_key (Scenario.upload Scenario.resume_pdf)
           Scenario.session).
  - reflexivity.
  - right. reflexivity.
Defined.

Lemma file_read_failure_witness :
  fst (POST Scenario.env (Scenario.upload Sample.unreadable_file))
  = [ConsoleError "Error optimizing resume:"]
  /\ snd (POST Scenario.env (Scenario.upload Sample.unreadable_file))
     = Returns internal_error.
Proof.
  destruct (file_read_failure
              Scenario.env (Scenario.upload Sample.unreadable_file)
              Scenario.session Scenario.apiKey
              (Scenario.form_of Sample.unreadable_file)
              Sample.unreadable_file (OtherError "NotReadableError")
              eq_refl eq_refl eq_refl eq_refl
              (proj1 (endsWith_pdf "resume.pdf") eq_refl))
    as [Htrace Hresponse].
  - simpl. lia.
  - reflexivity.
  - split; [exact Htrace|].
    apply (Hresponse "NotReadableError"). reflexivity.
Defined.

Lemma size_within_limit_passes_witness :
  exists rest,
    fst (POST Scenario.env (Scenario.upload Sample.empty_pdf))
    = ConsoleLog "Parsing uploaded resume..."
        :: ParseResumeCall {| file := ""; parse_to := "json" |}
        :: rest.
Proof.
  apply (size_within_limit_passes
           Scenario.env (Scenario.upload Sample.empty_pdf)
           Scenario.session Scenario.apiKey
           (Scenario.form_of Sample.empty_pdf) Sample.empty_pdf []
           eq_refl eq_refl eq_refl eq_refl
           (proj1 (endsWith_pdf "empty.pdf") eq_refl)).
  - simpl. lia.
  - reflexivity.
Defined.
